(** * Trivia API (app.py): pagination, filtering and quiz selection

    A shallow embedding of [app.py].  The relational store behind
    [Question.query] is a list of rows in the order the store returns them
    when no ORDER BY is given; [order_by(Question.id)] sorts that list.
    Flask's [abort] and Python exceptions are an outcome type, the bare
    [except:] blocks and the registered error handlers are functions on it. *)

From Stdlib Require Import ZArith List String Ascii Bool Lia Permutation.
Import ListNotations.

Local Open Scope Z_scope.

(** ** Python values and builtins used by app.py *)

Module Py.

#[local] Set Warnings "-register-all".

(** A decoded JSON value (integers only among the numbers). *)
Inductive json : Type :=
| JNull
| JBool (b : bool)
| JInt (n : Z)
| JStr (s : string)
| JArr (items : list json)
| JObj (members : list (string * json)).

(** Truth value of a Python object, as tested by [if x:]. *)
Definition truthy (v : json) : bool :=
  match v with
  | JNull => false
  | JBool b => b
  | JInt n => negb (n =? 0)
  | JStr s => negb (String.eqb s EmptyString)
  | JArr l => match l with [] => false | _ :: _ => true end
  | JObj l => match l with [] => false | _ :: _ => true end
  end.

(** [d.get(key)] on a dict held as an association list. *)
Fixpoint dict_get {V : Type} (key : string) (d : list (string * V)) : option V :=
  match d with
  | [] => None
  | (k, v) :: rest => if String.eqb k key then Some v else dict_get key rest
  end.

(** One bound of [l[start:stop]] brought into [0, len]: a negative bound
    counts from the end, and both ends clamp. *)
Definition slice_bound (len i : Z) : Z :=
  if i <? 0 then Z.max (i + len) 0 else Z.min i len.

(** [l[start:stop]] with step 1. *)
Definition slice {A : Type} (l : list A) (start stop : Z) : list A :=
  let len := Z.of_nat (List.length l) in
  let lo := slice_bound len start in
  let hi := slice_bound len stop in
  firstn (Z.to_nat (hi - lo)) (skipn (Z.to_nat lo) l).

(** [int(s)] on a string of ASCII characters: blanks around, an optional
    sign, then decimal digits, where single underscores may separate
    digits.  The digits and blanks beyond ASCII, which Python also reads,
    are not told apart here (see [is_ascii]), nor is the limit that newer
    interpreters put on the number of digits. *)
Definition digit_of (c : ascii) : option Z :=
  let n := Z.of_nat (nat_of_ascii c) in
  if (48 <=? n) && (n <=? 57) then Some (n - 48) else None.

Definition is_space (c : ascii) : bool :=
  let n := nat_of_ascii c in
  (Nat.eqb n 32 || (Nat.leb 9 n && Nat.leb n 13)
   || (Nat.leb 28 n && Nat.leb n 31))%bool.

Fixpoint all_space (s : string) : bool :=
  match s with
  | EmptyString => true
  | String c rest => is_space c && all_space rest
  end.

(** The digits after the sign; [after_digit] tells whether the character
    just read was a digit. *)
Fixpoint digits_value (acc : Z) (after_digit : bool) (s : string) : option Z :=
  match s with
  | EmptyString => if after_digit then Some acc else None
  | String c rest =>
      match digit_of c with
      | Some d => digits_value (10 * acc + d) true rest
      | None =>
          if negb after_digit then None
          else if Ascii.eqb c "_"%char then digits_value acc false rest
          else if is_space c && all_space rest then Some acc
          else None
      end
  end.

Definition signed_int (s : string) : option Z :=
  match s with
  | String "-"%char rest => option_map Z.opp (digits_value 0 false rest)
  | String "+"%char rest => digits_value 0 false rest
  | _ => digits_value 0 false s
  end.

Fixpoint lstrip (s : string) : string :=
  match s with
  | EmptyString => EmptyString
  | String c rest => if is_space c then lstrip rest else s
  end.

(** [None] is ValueError. *)
Definition int (s : string) : option Z := signed_int (lstrip s).

(** [s.isascii()]: every character is below 128. *)
Fixpoint is_ascii (s : string) : bool :=
  match s with
  | EmptyString => true
  | String c rest => Nat.ltb (nat_of_ascii c) 128 && is_ascii rest
  end.

End Py.

(** ** Flask: requests, abort, error handlers *)

Module Flask.

(** What a view function ends in: a value, [abort(code)], or another
    Python exception. *)
Inductive outcome (A : Type) : Type :=
| Return (a : A)
| Abort (code : nat)
| Raise (exc : string).

Arguments Return {A} a.
Arguments Abort {A} code.
Arguments Raise {A} exc.

Definition bind {A B : Type} (m : outcome A) (k : A -> outcome B) : outcome B :=
  match m with
  | Return a => k a
  | Abort c => Abort c
  | Raise e => Raise e
  end.

(** [try: body  except: abort(422)]: the bare except also catches the
    exception that [abort] raises. *)
Definition try_except_422 {A : Type} (body : outcome A) : outcome A :=
  match body with
  | Return a => Return a
  | Abort _ => Abort 422
  | Raise _ => Abort 422
  end.

(** The query string of a request. *)
Record request : Type := { args : list (string * string) }.

(** [request.args.get(key, default, type=int)]: the default when the key
    is absent or the conversion raises ValueError. *)
Definition args_get_int (r : request) (key : string) (default : Z) : Z :=
  match Py.dict_get key (args r) with
  | None => default
  | Some s => match Py.int s with Some n => n | None => default end
  end.

End Flask.


(** ** The store behind models.py *)

(** Modelled from the spec: models.py (the Question and Category classes) is
    not among the sources.  A question has an identifier, question text,
    answer text, a category reference and a difficulty score; a category has
    an identifier and a display label, read as [.type] by app.py. *)
Module Question.
Record t : Type := {
  id : Z;
  question : string;
  answer : string;
  category : Z;
  difficulty : Z
}.
End Question.

Module Category.
Record t : Type := {
  id : Z;
  type : string
}.
End Category.

Module Models.

(** The two tables, each in the order the store yields its rows when the
    query has no [order_by]. *)
Record db : Type := {
  questions : list Question.t;
  categories : list Category.t
}.

(** [order_by(Question.id)]: ascending identifiers, by stable insertion. *)
Fixpoint insert_by_id (q : Question.t) (sorted : list Question.t) : list Question.t :=
  match sorted with
  | [] => [q]
  | r :: rest =>
      if Question.id r <? Question.id q then r :: insert_by_id q rest
      else q :: r :: rest
  end.

Definition order_by_id (rows : list Question.t) : list Question.t :=
  fold_right insert_by_id [] rows.

(** [Query.one_or_none()]: no row, the one row, or MultipleResultsFound. *)
Definition one_or_none {A : Type} (rows : list A) : Flask.outcome (option A) :=
  match rows with
  | [] => Flask.Return None
  | [r] => Flask.Return (Some r)
  | _ => Flask.Raise "MultipleResultsFound"
  end.

(** Modelled from the spec: [question.delete()] of models.py, which is not
    among the sources; the row with that identifier leaves the table. *)
Definition delete (q : Question.t) (d : db) : db :=
  {| questions :=
       filter (fun r => negb (Question.id r =? Question.id q)) (questions d);
     categories := categories d |}.

(** [Category.query.get(category_id)]: lookup by primary key. *)
Definition category_get (d : db) (category_id : Z) : option Category.t :=
  find (fun c => Category.id c =? category_id) (categories d).

End Models.

(** ** The store's ILIKE operator *)

(** [column.ilike(pattern)] is the store's case-insensitive LIKE: the pattern
    is read into tokens, and a row is kept when its text matches them.
    Texts are taken character by character as ASCII: the letters A to Z
    fold to a to z, and letters beyond ASCII, which the store folds by its
    locale, are compared as they are. *)
Module Sql.

Definition lower (c : ascii) : ascii :=
  let n := nat_of_ascii c in
  if (Nat.leb 65 n && Nat.leb n 90)%bool then ascii_of_nat (n + 32) else c.

(** A LIKE pattern, read: [%] stands for any run of characters, [_] for
    any one character, and a backslash makes the next character literal. *)
Inductive token : Type :=
| AnyRun
| AnyOne
| Lit (c : ascii).

(** [None]: the pattern ends in a lone backslash, which the store rejects. *)
Fixpoint tokens (pattern : string) : option (list token) :=
  match pattern with
  | EmptyString => Some []
  | String c rest =>
      if Ascii.eqb c "\"%char then
        match rest with
        | EmptyString => None
        | String d rest' => option_map (cons (Lit d)) (tokens rest')
        end
      else if Ascii.eqb c "%"%char then option_map (cons AnyRun) (tokens rest)
      else if Ascii.eqb c "_"%char then option_map (cons AnyOne) (tokens rest)
      else option_map (cons (Lit c)) (tokens rest)
  end.

(** Matching of the whole text against the pattern, letters compared
    without regard to case. *)
Fixpoint matches (p : list token) (text : string) {struct p} : bool :=
  match p with
  | [] => match text with EmptyString => true | String _ _ => false end
  | AnyRun :: p' =>
      (fix skip (t : string) : bool :=
         matches p' t ||
         match t with
         | EmptyString => false
         | String _ t' => skip t'
         end) text
  | AnyOne :: p' =>
      match text with
      | EmptyString => false
      | String _ t' => matches p' t'
      end
  | Lit c :: p' =>
      match text with
      | EmptyString => false
      | String d t' => Ascii.eqb (lower c) (lower d) && matches p' t'
      end
  end.

End Sql.

(** ** app.py *)

Import Flask.

Notation "x <- m ;; k" := (bind m (fun x => k))
  (at level 61, m at next level, right associativity).

(** The JSON body of a /quizzes request as far as [quiz_question] reads it:
    [previous_questions], absent or a list of integer identifiers, and
    [quiz_category], absent or any JSON value. *)
Record quiz_json : Type := {
  previous_questions : option (list Z);
  quiz_category : option Py.json
}.

(** The JSON body of a /questions/search request: [search], absent or a
    string. *)
Record search_json : Type := {
  search : option string
}.

(** [f'{search}'] : the string itself, or [None] printed. *)
Definition str_of_search (s : option string) : string :=
  match s with
  | Some v => v
  | None => "None"
  end.

(** [request_data.get('previous_questions', [])]. *)
Definition get_previous_questions (request_data : quiz_json) : list Z :=
  match previous_questions request_data with
  | Some l => l
  | None => []
  end.

(** [request_data.get('quiz_category', {})]. *)
Definition get_quiz_category (request_data : quiz_json) : Py.json :=
  match quiz_category request_data with
  | Some v => v
  | None => Py.JObj []
  end.

(** [quiz_category.get('id')]: Python's [None] when the key is absent, and
    AttributeError when [quiz_category] is not an object. *)
Definition get_id (quiz_category : Py.json) : outcome Py.json :=
  match quiz_category with
  | Py.JObj members =>
      Return match Py.dict_get "id" members with
             | Some v => v
             | None => Py.JNull
             end
  | _ => Raise "AttributeError"
  end.

(** [Question.id.in_(ids)] on one row. *)
Definition id_in (ids : list Z) (q : Question.t) : bool :=
  existsb (Z.eqb (Question.id q)) ids.

(** *** Notions of the specification *)

(** The exclusion set of a quiz request: its [previous_questions], and
    nothing when the request has none. *)
Inductive exclusion_set (request_data : quiz_json) : list Z -> Prop :=
| no_history :
    previous_questions request_data = None ->
    exclusion_set request_data []
| history (ids : list Z) :
    previous_questions request_data = Some ids ->
    exclusion_set request_data ids.

(** The category constraint of a quiz request with a well-formed category
    id, where [read] is what the store makes of a value compared with the
    category column.  There is no constraint when the request has no
    [quiz_category], when that object has no [id], and when the id is
    falsy, as 0 is; a truthy id that reads as category [c] constrains the
    quiz to [c]. *)
Inductive category_constraint (read : Py.json -> option Z)
    (request_data : quiz_json) : option Z -> Prop :=
| no_category :
    quiz_category request_data = None ->
    category_constraint read request_data None
| no_category_id (members : list (string * Py.json)) :
    quiz_category request_data = Some (Py.JObj members) ->
    Py.dict_get "id" members = None ->
    category_constraint read request_data None
| falsy_category_id (members : list (string * Py.json)) (v : Py.json) :
    quiz_category request_data = Some (Py.JObj members) ->
    Py.dict_get "id" members = Some v ->
    Py.truthy v = false ->
    category_constraint read request_data None
| truthy_category_id (members : list (string * Py.json)) (v : Py.json)
    (c : Z) :
    quiz_category request_data = Some (Py.JObj members) ->
    Py.dict_get "id" members = Some v ->
    Py.truthy v = true ->
    read v = Some c ->
    category_constraint read request_data (Some c).

(** Membership of an identifier in a set of identifiers. *)
Definition listed (ids : list Z) (i : Z) : bool :=
  if in_dec Z.eq_dec i ids then true else false.

(** The eligible set of a quiz request: the rows that are not in the
    exclusion set and match the active category constraint, if there is
    one, in the order of the store. *)
Definition eligible (d : Models.db) (excluded : list Z) (active : option Z)
    : list Question.t :=
  filter (fun q =>
            negb (listed excluded (Question.id q)) &&
            match active with
            | Some c => Question.category q =? c
            | None => true
            end)
         (Models.questions d).

(** Rows in ascending order of their identifiers. *)
Fixpoint ascending (rows : list Question.t) : bool :=
  match rows with
  | [] => true
  | q :: rest =>
      forallb (fun r => Question.id q <=? Question.id r) rest && ascending rest
  end.

(** An identifier-shaped value: an integer, or a string that reads as one. *)
Definition numeric (v : Py.json) : bool :=
  match v with
  | Py.JInt _ => true
  | Py.JStr s => match Py.int s with Some _ => true | None => false end
  | _ => false
  end.

(** [needle] occurs in [hay] as a run of consecutive characters. *)
Fixpoint contains (needle hay : string) : bool :=
  String.prefix needle hay ||
  match hay with
  | EmptyString => false
  | String _ rest => contains needle rest
  end.

Fixpoint lowercase (s : string) : string :=
  match s with
  | EmptyString => EmptyString
  | String c rest => String (Sql.lower c) (lowercase rest)
  end.

(** A search term without the characters that a LIKE pattern reads as
    wildcards or as the escape. *)
Fixpoint wildcard_free (term : string) : bool :=
  match term with
  | EmptyString => true
  | String c rest =>
      negb (Ascii.eqb c "\"%char) && negb (Ascii.eqb c "%"%char) &&
      negb (Ascii.eqb c "_"%char) && wildcard_free rest
  end.

(** The text holds the character NUL, which the driver of the store
    refuses in a statement. *)
Fixpoint has_nul (text : string) : bool :=
  match text with
  | EmptyString => false
  | String c rest => Ascii.eqb c zero || has_nul rest
  end.

(** Tokens that match the same texts: equal, or letters equal up to case. *)
Definition same_token (a b : Sql.token) : Prop :=
  match a, b with
  | Sql.AnyRun, Sql.AnyRun => True
  | Sql.AnyOne, Sql.AnyOne => True
  | Sql.Lit c, Sql.Lit d => Sql.lower c = Sql.lower d
  | _, _ => False
  end.

(** The literal tokens of a term, character by character. *)
Fixpoint literals (term : string) : list Sql.token :=
  match term with
  | EmptyString => []
  | String c rest => Sql.Lit c :: literals rest
  end.

(** *** A concrete store and formatter *)

(** Modelled from the spec: what the store makes of a value compared with
    the integer category column, which models.py and the store decide and
    which are not among the sources.  A numeric value is the integer it
    reads as; any other value is rejected. *)
Definition int_column (v : Py.json) : option Z :=
  match v with
  | Py.JInt n => Some n
  | Py.JStr s => Py.int s
  | _ => None
  end.

(** A formatter that keeps the row as it is. *)
Definition as_row (q : Question.t) : Question.t := q.

Definition mk_question (i : Z) (text : string) (c : Z) : Question.t :=
  {| Question.id := i; Question.question := text; Question.answer := "yes";
     Question.category := c; Question.difficulty := 1 |}.

Definition science : Category.t := {| Category.id := 1; Category.type := "Science" |}.
Definition art : Category.t := {| Category.id := 2; Category.type := "Art" |}.

(** Three questions; the row with id 99 was inserted before the row with
    id 24, as the test suite's explicit [id: 99] makes possible. *)
Definition sample_db : Models.db :=
  {| Models.questions :=
       [ mk_question 5 "What is the Title of this book?" 1;
         mk_question 99 "abc" 2;
         mk_question 24 "Which title came first?" 1 ];
     Models.categories := [science; art] |}.

(** [n] questions with the identifiers 1 to [n], in that order. *)
Definition numbered_questions (n : nat) : list Question.t :=
  map (fun i => mk_question (Z.of_nat i) "Which one?" 1) (seq 1 n).

(** Quiz requests: nothing seen and no category; a category object with
    the given id and nothing seen; category 1 after question 5. *)
Definition quiz_fresh : quiz_json :=
  {| previous_questions := Some []; quiz_category := None |}.

Definition quiz_in_category (category_id : Py.json) : quiz_json :=
  {| previous_questions := None;
     quiz_category :=
       Some (Py.JObj [("id"%string, category_id);
                      ("type"%string, Py.JStr "click")]) |}.

Definition quiz_science_after_5 : quiz_json :=
  {| previous_questions := Some [5];
     quiz_category :=
       Some (Py.JObj [("id"%string, Py.JInt 1);
                      ("type"%string, Py.JStr "Science")]) |}.


Definition quiz_art_after_99 : quiz_json :=
  {| previous_questions := Some [99];
     quiz_category :=
       Some (Py.JObj [("id"%string, Py.JInt 2);
                      ("type"%string, Py.JStr "Art")]) |}.

Definition quiz_null_category : quiz_json :=
  {| previous_questions := Some []; quiz_category := Some Py.JNull |}.

Definition page_request (page : string) : Flask.request :=
  {| args := [("page"%string, page)] |}.

Definition no_args : Flask.request := {| args := [] |}.

(** *** Categories *)

(** [order_by(Category.id)]: ascending identifiers, by stable insertion. *)
Fixpoint insert_category_by_id (c : Category.t) (sorted : list Category.t)
    : list Category.t :=
  match sorted with
  | [] => [c]
  | r :: rest =>
      if Category.id r <? Category.id c then r :: insert_category_by_id c rest
      else c :: r :: rest
  end.

Definition order_categories_by_id (rows : list Category.t) : list Category.t :=
  fold_right insert_category_by_id [] rows.

(** [d[key] = value] on a dict with integer keys: the value of a key that
    is there is replaced in place, a new key goes to the end. *)
Fixpoint setitem (key : Z) (value : string) (d : list (Z * string))
    : list (Z * string) :=
  match d with
  | [] => [(key, value)]
  | (k, v) :: rest =>
      if k =? key then (key, value) :: rest
      else (k, v) :: setitem key value rest
  end.

(** [d.get(key)] on such a dict. *)
Fixpoint getitem (key : Z) (d : list (Z * string)) : option string :=
  match d with
  | [] => None
  | (k, v) :: rest => if k =? key then Some v else getitem key rest
  end.

(** The dictionary returned by [get_categories_data]. *)
Record categories_data : Type := {
  success : bool;
  categories : list (Z * string)
}.

(** [current_categories[category.id] = category.type]. *)
Definition set_category (current_categories : list (Z * string))
    (category : Category.t) : list (Z * string) :=
  setitem (Category.id category) (Category.type category) current_categories.

Definition get_categories_data (d : Models.db) : categories_data :=
  let categories := order_categories_by_id (Models.categories d) in
  let current_categories := fold_left set_category categories [] in
  {| success := true; categories := current_categories |}.

(** GET /categories: [jsonify] of that dictionary, status 200. *)
Definition retrieve_categories (d : Models.db) : nat * categories_data :=
  (200%nat, get_categories_data d).

(** The sample store with its rows in ascending order of identifiers. *)
Definition sample_db_by_id : Models.db :=
  {| Models.questions :=
       [ mk_question 5 "What is the Title of this book?" 1;
         mk_question 24 "Which title came first?" 1;
         mk_question 99 "abc" 2 ];
     Models.categories := [science; art] |}.

(** A store with one question, whose category has no row. *)
Definition orphan_db : Models.db :=
  {| Models.questions := [mk_question 1 "Who?" 9];
     Models.categories := [science] |}.

(** Requests for the pages 1 and 2, and for page 1 otherwise. *)
Definition first_pages (i : nat) : Flask.request :=
  match i with
  | 2%nat => {| args := [("page"%string, "2"%string)] |}
  | _ => {| args := [("page"%string, "1"%string)] |}
  end.

Section App.

(** [Question.format()] of models.py, which is not among the sources: the
    JSON-ready form of a row. *)
Variable formatted : Type.
Variable format : Question.t -> formatted.

(** The store's reading of a value compared with the integer column
    [Question.category]: the integer it stands for, or [None] when the
    store rejects the statement, which reaches Python as an exception. *)
Variable category_param : Py.json -> option Z.

(** The dictionaries handed to [jsonify], by the keys they carry. *)
Inductive body : Type :=
| PageBody (success : bool) (questions : list formatted) (total_questions : nat)
| DeletedBody (success : bool) (deleted : Z)
    (questions : list formatted) (total_questions : nat)
| CategoryBody (success : bool) (questions : list formatted)
    (total_questions : nat) (current_category : string)
| QuizBody (success : bool) (question : option formatted)
| ErrorBody (success : bool) (error : nat) (message : string).

(** The [total_questions] member, where the dictionary has one. *)
Definition total_questions_of (b : body) : option nat :=
  match b with
  | PageBody _ _ n | DeletedBody _ _ _ n | CategoryBody _ _ n _ => Some n
  | QuizBody _ _ | ErrorBody _ _ _ => None
  end.

Definition questions_of (b : body) : option (list formatted) :=
  match b with
  | PageBody _ qs _ | DeletedBody _ _ qs _ | CategoryBody _ qs _ _ => Some qs
  | QuizBody _ _ | ErrorBody _ _ _ => None
  end.

(** A response: status code and JSON body. *)
Definition response : Type := (nat * body)%type.

Definition QUESTIONS_PER_PAGE : Z := 10.

Definition paginate_data (request : Flask.request)
    (given_data : list Question.t) : list formatted :=
  let page := args_get_int request "page" 1 in
  let start := (page - 1) * QUESTIONS_PER_PAGE in
  let end_ := start + QUESTIONS_PER_PAGE in
  let formatted_data := map format given_data in
  Py.slice formatted_data start end_.

Definition get_paginted_all_questions (d : Models.db)
    (request : Flask.request) : outcome body :=
  let questions := Models.order_by_id (Models.questions d) in
  let current_question := paginate_data request questions in
  if Nat.eqb (List.length current_question) 0 then Abort 404
  else Return (PageBody true current_question
                 (List.length (Models.questions d))).

(** The error handlers registered on the app. *)
Definition not_found : response :=
  (404%nat, ErrorBody false 404 "resource not found").
Definition unprocessable : response :=
  (422%nat, ErrorBody false 422 "unprocessable").
Definition bad_request : response :=
  (400%nat, ErrorBody false 400 "bad request").
Definition method_not_allowed : response :=
  (405%nat, ErrorBody false 405 "method not allowed").
Definition server_error : response :=
  (500%nat, ErrorBody false 500 "something went wrong").

(** What the client receives for the outcome of a view: [jsonify] of the
    returned dictionary with status 200, the handler of the aborted code,
    or the catch-all handler. *)
Definition respond (o : outcome body) : response :=
  match o with
  | Return b => (200%nat, b)
  | Abort 404 => not_found
  | Abort 422 => unprocessable
  | Abort 400 => bad_request
  | Abort 405 => method_not_allowed
  | Abort _ => server_error
  | Raise _ => server_error
  end.

(** DELETE /questions/<int:question_id>: the body of the [try]. *)
Definition delete_question_try (d : Models.db) (request : Flask.request)
    (question_id : Z) : Models.db * outcome body :=
  match Models.one_or_none
          (filter (fun q => Question.id q =? question_id) (Models.questions d)) with
  | Return None => (d, Abort 404)
  | Return (Some question) =>
      let d' := Models.delete question d in
      (d', response_data <- get_paginted_all_questions d' request ;;
           match response_data with
           | PageBody _ qs n => Return (DeletedBody true question_id qs n)
           | other => Return other
           end)
  | Abort c => (d, Abort c)
  | Raise e => (d, Raise e)
  end.

Definition delete_question (d : Models.db) (request : Flask.request)
    (question_id : Z) : Models.db * response :=
  let '(d', o) := delete_question_try d request question_id in
  (d', respond (try_except_422 o)).

(** POST /questions/search with a body that is a JSON object.  A pattern
    that holds NUL is refused by the driver with ValueError; nothing in
    the view catches it. *)
Definition search_question (d : Models.db) (request_json : search_json)
    : response :=
  let pattern := ("%" ++ str_of_search (search request_json) ++ "%")%string in
  respond
    (if has_nul pattern then Raise "ValueError"
     else
       match Sql.tokens pattern with
       | None => Raise "DataError"
       | Some p =>
           let questions :=
             filter (fun q => Sql.matches p (Question.question q))
                    (Models.questions d) in
           let formatted_books := map format questions in
           Return (PageBody true formatted_books (List.length formatted_books))
       end).

(** GET /categories/<int:category_id>/questions. *)
Definition retrieve_questions_for_category (d : Models.db)
    (request : Flask.request) (category_id : Z) : response :=
  let questions :=
    Models.order_by_id
      (filter (fun q => Question.category q =? category_id)
              (Models.questions d)) in
  let current_question := paginate_data request questions in
  respond
    (if Nat.eqb (List.length current_question) 0 then Abort 404
     else
       let total := List.length (Models.questions d) in
       match Models.category_get d category_id with
       | None => Raise "AttributeError"
       | Some c =>
           Return (CategoryBody true current_question total (Category.type c))
       end).

(** The query built by [quiz_question] before it is counted: the rows
    whose id is not among [previous_questions], further filtered by
    category when [quiz_category.get('id')] is truthy. *)
Definition quiz_query (d : Models.db) (request_data : quiz_json)
    : outcome (list Question.t) :=
  let previous_questions := get_previous_questions request_data in
  let quiz_category := get_quiz_category request_data in
  let questions :=
    filter (fun q => negb (id_in previous_questions q)) (Models.questions d) in
  category_id <- get_id quiz_category ;;
  if Py.truthy category_id then
    match category_param category_id with
    | Some c => Return (filter (fun q => Question.category q =? c) questions)
    | None => Raise "DataError"
    end
  else Return questions.

(** POST /quizzes: the body of the [try]; [rand] is the number that
    [random.randrange(0, questions_count)] returned. *)
Definition quiz_question_try (d : Models.db) (request_data : quiz_json)
    (rand : nat) : outcome body :=
  questions <- quiz_query d request_data ;;
  let questions_count := List.length questions in
  if negb (Nat.eqb questions_count 0) then
    match nth_error questions rand with
    | Some question => Return (QuizBody true (Some (format question)))
    | None => Raise "IndexError"
    end
  else Return (QuizBody true None).

Definition quiz_question (d : Models.db) (request_data : quiz_json)
    (rand : nat) : response :=
  respond (try_except_422 (quiz_question_try d request_data rand)).

(** ** Pagination *)

(** [response_data.update({'success': ...})] on a dictionary. *)
Definition set_success (b : body) (s : bool) : body :=
  match b with
  | PageBody _ qs n => PageBody s qs n
  | DeletedBody _ i qs n => DeletedBody s i qs n
  | CategoryBody _ qs n c => CategoryBody s qs n c
  | QuizBody _ q => QuizBody s q
  | ErrorBody _ e m => ErrorBody s e m
  end.

(** GET /questions: the page dictionary updated with the categories
    dictionary, which sets [success] and adds the member [categories],
    here beside the body. *)
Definition retrieve_questions (d : Models.db) (request : Flask.request)
    : response * option (list (Z * string)) :=
  match get_paginted_all_questions d request with
  | Return questions =>
      let data := get_categories_data d in
      ((200%nat, set_success questions (success data)), Some (categories data))
  | Abort c => (respond (Abort c), None)
  | Raise e => (respond (Raise e), None)
  end.

Lemma firstn_cap {A : Type} (l : list A) (n : nat) :
  firstn n l = firstn (Nat.min n (List.length l)) l.
Proof.
  destruct (Nat.le_ge_cases n (List.length l)) as [Hle | Hge].
  - now rewrite Nat.min_l.
  - rewrite Nat.min_r by assumption.
    now rewrite !firstn_all2 by lia.
Qed.

(** With bounds that do not count from the end, a slice is "drop [start],
    keep [stop - start]". *)
Lemma slice_nonneg {A : Type} (l : list A) (start stop : Z) :
  0 <= start -> start <= stop ->
  Py.slice l start stop =
  firstn (Z.to_nat (stop - start)) (skipn (Z.to_nat start) l).
Proof.
  intros Hs Hle. unfold Py.slice, Py.slice_bound.
  destruct (Z.ltb_spec start 0) as [?|_]; [lia|].
  destruct (Z.ltb_spec stop 0) as [?|_]; [lia|].
  set (len := List.length l).
  destruct (Z.le_gt_cases (Z.of_nat len) start) as [Hout | Hin].
  - rewrite (Z.min_r start) by lia.
    rewrite !skipn_all2 by (subst len; lia).
    now rewrite !firstn_nil.
  - rewrite (Z.min_l start) by lia.
    rewrite (firstn_cap (skipn _ _) (Z.to_nat (stop - start))).
    rewrite (firstn_cap (skipn _ _) (Z.to_nat (Z.min _ _ - start))).
    f_equal. rewrite length_skipn. fold len. lia.
Qed.

Lemma nth_error_firstn_skipn {A : Type} (l : list A) (a n k : nat) :
  nth_error (firstn n (skipn a l)) k =
  if Nat.ltb k n then nth_error l (a + k) else None.
Proof.
  destruct (Nat.ltb_spec k n) as [Hlt | Hge].
  - rewrite nth_error_firstn.
    destruct (Nat.ltb_spec k n); [|lia].
    now rewrite nth_error_skipn.
  - apply nth_error_None. rewrite length_firstn. lia.
Qed.

Lemma slice_map {A B : Type} (f : A -> B) (l : list A) (start stop : Z) :
  Py.slice (map f l) start stop = map f (Py.slice l start stop).
Proof.
  unfold Py.slice. rewrite length_map.
  now rewrite skipn_map, firstn_map.
Qed.

Lemma paginate_data_unfold (request : Flask.request) (items : list Question.t) :
  paginate_data request items =
  Py.slice (map format items)
    ((args_get_int request "page" 1 - 1) * 10)
    (args_get_int request "page" 1 * 10).
Proof.
  unfold paginate_data, QUESTIONS_PER_PAGE. f_equal. lia.
Qed.

Lemma paginate_data_from_page_1 (request : Flask.request)
    (items : list Question.t) :
  1 <= args_get_int request "page" 1 ->
  paginate_data request items =
  firstn 10 (skipn (Z.to_nat ((args_get_int request "page" 1 - 1) * 10))
                   (map format items)).
Proof.
  intros Hp. rewrite paginate_data_unfold.
  rewrite slice_nonneg by lia. do 2 f_equal. lia.
Qed.

(** C4: from page 1 on, the page is the slice
    [items[(page-1)*10 : page*10]] of the items, each formatted: its k-th
    entry is entry [(page-1)*10 + k] of the items for k below 10 and
    nothing beyond, a start past the end gives the empty page, and a page
    never has more than 10 entries. *)
Theorem paginate_data_is_slice (request : Flask.request)
    (items : list Question.t) :
  let page := args_get_int request "page" 1 in
  1 <= page ->
  paginate_data request items =
    map format (Py.slice items ((page - 1) * 10) (page * 10))
  /\ (forall k : nat,
        nth_error (paginate_data request items) k =
        if Nat.ltb k 10
        then nth_error (map format items) (Z.to_nat ((page - 1) * 10) + k)
        else None)
  /\ (Z.of_nat (List.length items) <= (page - 1) * 10 ->
      paginate_data request items = [])
  /\ (List.length (paginate_data request items) <= 10)%nat.
Proof.
  intros page Hp. subst page.
  split; [rewrite <- slice_map; apply paginate_data_unfold|].
  rewrite paginate_data_from_page_1 by assumption.
  split; [intros k; apply nth_error_firstn_skipn|].
  split.
  - intros Hout. rewrite skipn_all2; [apply firstn_nil|].
    rewrite length_map. lia.
  - rewrite length_firstn. lia.
Qed.

(** A page number that is absent or does not parse counts as page 1. *)
Lemma page_defaults_to_1 (request : Flask.request) :
  Py.dict_get "page" (args request) = None \/
  (exists s, Py.dict_get "page" (args request) = Some s /\ Py.int s = None) ->
  args_get_int request "page" 1 = 1.
Proof.
  unfold args_get_int. intros [H | [s [H Hs]]]; rewrite H; [|rewrite Hs];
    reflexivity.
Qed.

(** C5, amended: from page 1 on, the page is empty exactly when
    [(page-1)*10] is at least the number of items. *)
Theorem paginate_data_empty_iff (request : Flask.request)
    (items : list Question.t) :
  let page := args_get_int request "page" 1 in
  1 <= page ->
  (paginate_data request items = [] <->
   (page - 1) * 10 >= Z.of_nat (List.length items)).
Proof.
  intros page Hp. subst page.
  rewrite paginate_data_from_page_1 by assumption.
  set (start := (args_get_int request "page" 1 - 1) * 10).
  assert (Hstart : 0 <= start) by (subst start; lia).
  clearbody start.
  split.
  - intros Hnil. apply (f_equal (@List.length formatted)) in Hnil.
    rewrite length_firstn, length_skipn, length_map in Hnil.
    change (List.length (@nil formatted)) with 0%nat in Hnil. lia.
  - intros Hout. rewrite skipn_all2; [apply firstn_nil|].
    rewrite length_map. lia.
Qed.

(** ** Quiz selection *)

Lemma filter_filter {A : Type} (f g : A -> bool) (l : list A) :
  filter g (filter f l) = filter (fun x => f x && g x) l.
Proof.
  induction l as [|x l IH]; simpl; [reflexivity|].
  destruct (f x); simpl; [destruct (g x)|]; now rewrite IH.
Qed.

Lemma filter_and_true {A : Type} (f : A -> bool) (l : list A) :
  filter f l = filter (fun x => f x && true) l.
Proof.
  apply filter_ext. intros x. now rewrite andb_true_r.
Qed.

Lemma id_in_listed (ids : list Z) (q : Question.t) :
  id_in ids q = listed ids (Question.id q).
Proof.
  unfold id_in, listed.
  destruct (in_dec Z.eq_dec (Question.id q) ids) as [Hin | Hout].
  - apply existsb_exists. exists (Question.id q).
    split; [assumption | apply Z.eqb_refl].
  - destruct (existsb _ ids) eqn:Hex; [|reflexivity].
    apply existsb_exists in Hex as [i [Hi Heq]].
    apply Z.eqb_eq in Heq. subst i. contradiction.
Qed.

Lemma eligible_unrestricted (d : Models.db) (excluded : list Z) :
  filter (fun q => negb (id_in excluded q)) (Models.questions d) =
  eligible d excluded None.
Proof.
  unfold eligible. apply filter_ext. intros q.
  now rewrite id_in_listed, andb_true_r.
Qed.

Lemma eligible_restricted (d : Models.db) (excluded : list Z) (c : Z) :
  filter (fun q => Question.category q =? c)
         (filter (fun q => negb (id_in excluded q)) (Models.questions d)) =
  eligible d excluded (Some c).
Proof.
  unfold eligible. rewrite filter_filter. apply filter_ext. intros q.
  now rewrite id_in_listed.
Qed.

(** The query of [quiz_question] is the eligible set for the exclusion set
    and the category constraint of the request. *)
Lemma quiz_query_eligible (d : Models.db) (request_data : quiz_json)
    (excluded : list Z) (active : option Z) :
  exclusion_set request_data excluded ->
  category_constraint category_param request_data active ->
  quiz_query d request_data = Return (eligible d excluded active).
Proof.
  intros Hex Hcat.
  assert (Hprev : get_previous_questions request_data = excluded)
    by (unfold get_previous_questions;
        destruct Hex as [H | ids H]; now rewrite H).
  unfold quiz_query, get_quiz_category. rewrite Hprev.
  destruct Hcat as [H | members H Hid | members v H Hid Hv
                    | members v c H Hid Hv Hc];
    rewrite H; cbn [get_id bind].
  - cbn [Py.dict_get Py.truthy]. now rewrite eligible_unrestricted.
  - rewrite Hid. cbn [Py.truthy]. now rewrite eligible_unrestricted.
  - rewrite Hid, Hv. now rewrite eligible_unrestricted.
  - rewrite Hid, Hv, Hc. now rewrite eligible_restricted.
Qed.

Lemma quiz_query_In (d : Models.db) (request_data : quiz_json)
    (rows : list Question.t) (q : Question.t) :
  quiz_query d request_data = Return rows ->
  In q rows ->
  In q (Models.questions d) /\
  ~ In (Question.id q) (get_previous_questions request_data).
Proof.
  unfold quiz_query. intros Hq Hin.
  assert (Hkept : In q (filter (fun r => negb (id_in
                                  (get_previous_questions request_data) r))
                               (Models.questions d))).
  { destruct (get_id (get_quiz_category request_data)) as [v | c | e];
      try discriminate.
    cbn [bind] in Hq. destruct (Py.truthy v).
    - destruct (category_param v); [|discriminate].
      injection Hq as <-. now apply filter_In in Hin.
    - now injection Hq as <-. }
  apply filter_In in Hkept as [Hstored Hout].
  split; [assumption|]. intros Hmem.
  rewrite id_in_listed in Hout. unfold listed in Hout.
  destruct (in_dec Z.eq_dec _ _); [discriminate | contradiction].
Qed.

(** The three ways [quiz_question] can answer. *)
Lemma quiz_question_cases (d : Models.db) (request_data : quiz_json)
    (rand : nat) :
  match quiz_query d request_data with
  | Return [] =>
      quiz_question d request_data rand = (200%nat, QuizBody true None)
  | Return rows =>
      match nth_error rows rand with
      | Some q =>
          quiz_question d request_data rand =
          (200%nat, QuizBody true (Some (format q)))
      | None => quiz_question d request_data rand = unprocessable
      end
  | Abort _ | Raise _ => quiz_question d request_data rand = unprocessable
  end.
Proof.
  unfold quiz_question, quiz_question_try.
  destruct (quiz_query d request_data) as [rows | c | e]; try reflexivity.
  destruct rows as [|r rows]; [reflexivity|].
  change (r <- Return (r :: rows) ;; ?k) with k.
  cbn [bind List.length Nat.eqb negb].
  destruct (nth_error (r :: rows) rand); reflexivity.
Qed.

(** C1: a question returned by the quiz is the formatted form of a stored
    row whose identifier is not in the caller's [previous_questions]. *)
Theorem quiz_never_returns_excluded (d : Models.db)
    (request_data : quiz_json) (rand : nat) (excluded : list Z)
    (returned : formatted) :
  previous_questions request_data = Some excluded ->
  quiz_question d request_data rand =
    (200%nat, QuizBody true (Some returned)) ->
  exists q : Question.t,
    returned = format q /\
    In q (Models.questions d) /\
    ~ In (Question.id q) excluded.
Proof.
  intros HE Hresp.
  assert (Hprev : get_previous_questions request_data = excluded)
    by (unfold get_previous_questions; now rewrite HE).
  pose proof (quiz_question_cases d request_data rand) as Hcases.
  destruct (quiz_query d request_data) as [rows | c | e] eqn:Hq;
    try (rewrite Hcases in Hresp; discriminate).
  destruct rows as [|r rows];
    [rewrite Hcases in Hresp; discriminate|].
  destruct (nth_error (r :: rows) rand) as [q|] eqn:Hnth;
    [|rewrite Hcases in Hresp; discriminate].
  rewrite Hcases in Hresp. injection Hresp as <-.
  exists q. split; [reflexivity|].
  rewrite <- Hprev.
  eapply quiz_query_In; [eassumption|].
  eapply nth_error_In; eassumption.
Qed.




(** C3, amended: a quiz request whose category id is truthy and is
    rejected by the store as a value of the integer category column is
    answered with status 422 and the error envelope with message
    "unprocessable". *)
Theorem quiz_rejected_category_unprocessable (d : Models.db)
    (request_data : quiz_json) (rand : nat)
    (members : list (string * Py.json)) (category_id : Py.json) :
  quiz_category request_data = Some (Py.JObj members) ->
  Py.dict_get "id" members = Some category_id ->
  Py.truthy category_id = true ->
  category_param category_id = None ->
  quiz_question d request_data rand =
    (422%nat, ErrorBody false 422 "unprocessable").
Proof.
  intros Hcat Hid Htruthy Hreject.
  pose proof (quiz_question_cases d request_data rand) as Hcases.
  unfold quiz_query, get_quiz_category in Hcases.
  rewrite Hcat in Hcases. cbn [get_id bind] in Hcases.
  rewrite Hid, Htruthy, Hreject in Hcases. exact Hcases.
Qed.


(** C7: when the category id of a quiz request is well formed, so that the
    request has a category constraint, and its eligible set is empty, the
    response is the success body with a null question and status 200,
    which is not the response of a failure. *)
Theorem quiz_none_when_nothing_eligible (d : Models.db)
    (request_data : quiz_json) (rand : nat) (excluded : list Z)
    (active : option Z) :
  exclusion_set request_data excluded ->
  category_constraint category_param request_data active ->
  eligible d excluded active = [] ->
  quiz_question d request_data rand = (200%nat, QuizBody true None) /\
  quiz_question d request_data rand <> unprocessable.
Proof.
  intros Hex Hcat Hempty.
  pose proof (quiz_question_cases d request_data rand) as Hcases.
  rewrite (quiz_query_eligible d request_data excluded active Hex Hcat),
    Hempty in Hcases.
  rewrite Hcases. split; [reflexivity|discriminate].
Qed.

(** X23: a [quiz_category] that is not a JSON object, such as null, is
    answered with the 422 envelope: reading its id raises inside the
    [try]. *)
Theorem quiz_category_not_object (d : Models.db) (request_data : quiz_json)
    (rand : nat) (v : Py.json) :
  quiz_category request_data = Some v ->
  (forall members, v <> Py.JObj members) ->
  quiz_question d request_data rand = unprocessable.
Proof.
  intros Hcat Hnot.
  pose proof (quiz_question_cases d request_data rand) as Hcases.
  unfold quiz_query, get_quiz_category in Hcases. rewrite Hcat in Hcases.
  destruct v; try exact Hcases. now elim (Hnot members).
Qed.

(** ** Deleting, listing by category, searching *)

Lemma filter_none {A : Type} (f : A -> bool) (l : list A) :
  (forall x, In x l -> f x = false) -> filter f l = [].
Proof.
  induction l as [|x l IH]; simpl; intros H; [reflexivity|].
  rewrite (H x) by now left. apply IH. intros y Hy. apply H. now right.
Qed.

(** C8: deleting an identifier that no stored question has leaves the
    store as it was and is answered with status 422 and the
    "unprocessable" envelope, not with the 404 one. *)
Theorem delete_absent_is_unprocessable (d : Models.db)
    (request : Flask.request) (question_id : Z) :
  (forall q, In q (Models.questions d) -> Question.id q <> question_id) ->
  delete_question d request question_id =
    (d, (422%nat, ErrorBody false 422 "unprocessable")) /\
  snd (delete_question d request question_id) <> not_found.
Proof.
  intros Habsent.
  assert (Heq : delete_question d request question_id =
                (d, (422%nat, ErrorBody false 422 "unprocessable"))).
  { unfold delete_question, delete_question_try.
    rewrite filter_none; [reflexivity|].
    intros q Hq. apply Z.eqb_neq. now apply Habsent. }
  split; [exact Heq|]. rewrite Heq. discriminate.
Qed.

(** C10: in a successful answer to GET /categories/<id>/questions the
    member [total_questions] is the number of all stored questions, of
    whatever category, while in a successful answer to the search it is
    the number of questions in that answer. *)
Theorem category_total_is_whole_store (d : Models.db)
    (request : Flask.request) (category_id : Z) (listing : body)
    (request_json : search_json) (found : body) :
  retrieve_questions_for_category d request category_id =
    (200%nat, listing) ->
  search_question d request_json = (200%nat, found) ->
  total_questions_of listing = Some (List.length (Models.questions d)) /\
  total_questions_of found =
    option_map (@List.length formatted) (questions_of found).
Proof.
  unfold retrieve_questions_for_category, search_question.
  intros Hlist Hfound. split.
  - destruct (Nat.eqb _ 0); [discriminate|].
    destruct (Models.category_get d category_id); [|discriminate].
    injection Hlist as <-. reflexivity.
  - destruct (has_nul _); [discriminate|].
    destruct (Sql.tokens _); [|discriminate].
    injection Hfound as <-. reflexivity.
Qed.

(** *** The ILIKE pattern of a search *)

Lemma matches_any_run (p : list Sql.token) (text : string) :
  Sql.matches (Sql.AnyRun :: p) text =
  Sql.matches p text ||
  match text with
  | EmptyString => false
  | String _ rest => Sql.matches (Sql.AnyRun :: p) rest
  end.
Proof.
  destruct text; reflexivity.
Qed.

Lemma matches_same_tokens (p1 p2 : list Sql.token) :
  Forall2 same_token p1 p2 ->
  forall text, Sql.matches p1 text = Sql.matches p2 text.
Proof.
  induction 1 as [|a b p1 p2 Hab _ IH]; [reflexivity|].
  destruct a, b; simpl in Hab; try contradiction.
  - induction text as [|c text IHt].
    + rewrite !matches_any_run. now rewrite IH.
    + rewrite (matches_any_run p1), (matches_any_run p2).
      now rewrite IH, IHt.
  - intros [|c text]; simpl; [reflexivity|apply IH].
  - intros [|e text]; simpl; [reflexivity|]. now rewrite Hab, IH.
Qed.

Lemma lower_fixes_specials :
  Sql.lower "\"%char = "\"%char /\ Sql.lower "%"%char = "%"%char /\
  Sql.lower "_"%char = "_"%char.
Proof.
  repeat split.
Qed.

Lemma lower_reaches_special (c x : ascii) :
  x = "\"%char \/ x = "%"%char \/ x = "_"%char ->
  Sql.lower c = x -> c = x.
Proof.
  intros Hx. unfold Sql.lower.
  remember (nat_of_ascii c) as n eqn:Hn.
  destruct (Nat.leb 65 n && Nat.leb n 90)%bool eqn:Hupper; [|easy].
  apply andb_prop in Hupper as [Hlo Hhi].
  apply Nat.leb_le in Hlo, Hhi.
  intros Heq. apply (f_equal nat_of_ascii) in Heq.
  rewrite nat_ascii_embedding in Heq by lia.
  destruct Hx as [-> | [-> | ->]];
    [ change (nat_of_ascii "\"%char) with 92%nat in Heq
    | change (nat_of_ascii "%"%char) with 37%nat in Heq
    | change (nat_of_ascii "_"%char) with 95%nat in Heq ]; lia.
Qed.

Lemma eqb_special_same_case (c d x : ascii) :
  x = "\"%char \/ x = "%"%char \/ x = "_"%char ->
  Sql.lower c = Sql.lower d ->
  Ascii.eqb c x = Ascii.eqb d x.
Proof.
  intros Hx Hcd.
  assert (Hfix : Sql.lower x = x)
    by (destruct Hx as [-> | [-> | ->]]; reflexivity).
  destruct (Ascii.eqb_spec c x) as [-> | Hc];
    destruct (Ascii.eqb_spec d x) as [-> | Hd]; try reflexivity.
  - exfalso. apply Hd. apply lower_reaches_special; [assumption|].
    now rewrite <- Hcd.
  - exfalso. apply Hc. apply lower_reaches_special; [assumption|].
    now rewrite Hcd.
Qed.


Lemma lowercase_app (s t : string) :
  lowercase (s ++ t) = (lowercase s ++ lowercase t)%string.
Proof.
  induction s as [|c s IH]; simpl; [reflexivity|now rewrite IH].
Qed.

(** Patterns that are equal up to the case of their letters read as the
    same tokens up to case. *)
Lemma tokens_same_case (n : nat) :
  forall p1 p2 : string,
    (String.length p1 <= n)%nat ->
    lowercase p1 = lowercase p2 ->
    match Sql.tokens p1, Sql.tokens p2 with
    | Some t1, Some t2 => Forall2 same_token t1 t2
    | None, None => True
    | _, _ => False
    end.
Proof.
  induction n as [|n IH]; intros p1 p2 Hlen Hlow.
  - destruct p1; [|simpl in Hlen; lia].
    destruct p2; [|discriminate]. simpl. constructor.
  - destruct p1 as [|c p1]; destruct p2 as [|d p2]; try discriminate.
    + simpl. constructor.
    + simpl in Hlow. injection Hlow as Hcd Hrest. simpl in Hlen.
      cbn [Sql.tokens].
      rewrite <- (eqb_special_same_case c d "\"%char) by auto.
      rewrite <- (eqb_special_same_case c d "%"%char) by auto.
      rewrite <- (eqb_special_same_case c d "_"%char) by auto.
      destruct (Ascii.eqb c "\"%char).
      * destruct p1 as [|c' p1]; destruct p2 as [|d' p2]; try discriminate;
          [exact I|].
        simpl in Hrest. injection Hrest as Hcd' Hrest. simpl in Hlen.
        specialize (IH p1 p2 ltac:(lia) Hrest).
        destruct (Sql.tokens p1), (Sql.tokens p2); simpl; try easy.
        constructor; [exact Hcd'|assumption].
      * specialize (IH p1 p2 ltac:(lia) Hrest).
        destruct (Ascii.eqb c "%"%char); [|destruct (Ascii.eqb c "_"%char)];
          destruct (Sql.tokens p1), (Sql.tokens p2); simpl; try easy;
          constructor; simpl; auto.
Qed.

Lemma tokens_literals (term rest : string) :
  wildcard_free term = true ->
  Sql.tokens (term ++ rest) = option_map (app (literals term)) (Sql.tokens rest).
Proof.
  induction term as [|c term IH]; simpl; intros Hfree.
  - now destruct (Sql.tokens rest).
  - apply andb_prop in Hfree as [Hc Hfree].
    apply andb_prop in Hc as [Hc Hu]. apply andb_prop in Hc as [Hb Hp].
    apply negb_true_iff in Hb, Hp, Hu. rewrite Hb, Hp, Hu.
    rewrite IH by assumption. now destruct (Sql.tokens rest).
Qed.

Lemma matches_any_run_alone (text : string) :
  Sql.matches [Sql.AnyRun] text = true.
Proof.
  induction text as [|c text IH]; [reflexivity|].
  rewrite matches_any_run, IH. apply orb_true_r.
Qed.

Lemma matches_literals_prefix (term text : string) :
  Sql.matches (literals term ++ [Sql.AnyRun]) text =
  String.prefix (lowercase term) (lowercase text).
Proof.
  revert text. induction term as [|c term IH]; intros text.
  - cbn [literals app]. rewrite matches_any_run_alone.
    destruct text; reflexivity.
  - destruct text as [|d text]; [reflexivity|].
    cbn [literals app Sql.matches lowercase String.prefix].
    rewrite IH.
    destruct (Ascii.eqb_spec (Sql.lower c) (Sql.lower d)) as [Heq | Hne];
      destruct (ascii_dec (Sql.lower c) (Sql.lower d));
      cbn [andb]; congruence.
Qed.

Lemma matches_contains (term text : string) :
  Sql.matches (Sql.AnyRun :: literals term ++ [Sql.AnyRun]) text =
  contains (lowercase term) (lowercase text).
Proof.
  induction text as [|d text IH]; rewrite matches_any_run;
    rewrite matches_literals_prefix.
  - simpl. reflexivity.
  - rewrite IH. reflexivity.
Qed.

Lemma lower_nul (c : ascii) :
  Ascii.eqb (Sql.lower c) zero = Ascii.eqb c zero.
Proof.
  unfold Sql.lower.
  destruct (Nat.leb 65 (nat_of_ascii c) && Nat.leb (nat_of_ascii c) 90)%bool
    eqn:Hupper; [|reflexivity].
  apply andb_prop in Hupper as [Hlo Hhi]. apply Nat.leb_le in Hlo, Hhi.
  remember (nat_of_ascii c) as n eqn:Hn.
  assert (Hc : Ascii.eqb c zero = false).
  { apply Ascii.eqb_neq. intros ->.
    change (nat_of_ascii zero) with 0%nat in Hn. lia. }
  rewrite Hc. apply Ascii.eqb_neq. intros Heq.
  apply (f_equal nat_of_ascii) in Heq.
  rewrite nat_ascii_embedding in Heq by lia.
  change (nat_of_ascii zero) with 0%nat in Heq. lia.
Qed.

Lemma has_nul_lowercase (text : string) :
  has_nul (lowercase text) = has_nul text.
Proof.
  induction text as [|c text IH]; [reflexivity|].
  cbn [lowercase has_nul]. now rewrite lower_nul, IH.
Qed.

Lemma has_nul_app (s t : string) :
  has_nul (s ++ t) = has_nul s || has_nul t.
Proof.
  induction s as [|c s IH]; [reflexivity|].
  cbn [append has_nul]. now rewrite IH, orb_assoc.
Qed.

Lemma has_nul_pattern (term : string) :
  has_nul ("%" ++ term ++ "%") = has_nul term.
Proof.
  rewrite !has_nul_app. change (has_nul "%") with false.
  now rewrite orb_false_r.
Qed.

(** X22: terms that differ only in the case of their letters find the same
    questions. *)
Lemma search_case_insensitive (d : Models.db) (term1 term2 : string) :
  lowercase term1 = lowercase term2 ->
  search_question d {| search := Some term1 |} =
  search_question d {| search := Some term2 |}.
Proof.
  intros Hlow. unfold search_question. cbn [search str_of_search].
  rewrite !has_nul_pattern.
  rewrite <- (has_nul_lowercase term1), Hlow, has_nul_lowercase.
  destruct (has_nul term2); [reflexivity|].
  pose proof (tokens_same_case
                (String.length ("%" ++ term1 ++ "%"))
                ("%" ++ term1 ++ "%") ("%" ++ term2 ++ "%") (le_n _)) as Hsame.
  rewrite !lowercase_app, Hlow in Hsame. specialize (Hsame eq_refl).
  destruct (Sql.tokens ("%" ++ term1 ++ "%")) as [p1|],
           (Sql.tokens ("%" ++ term2 ++ "%")) as [p2|];
    try contradiction; [|reflexivity].
  rewrite (filter_ext _ _ (fun q => matches_same_tokens p1 p2 Hsame
                                      (Question.question q))).
  reflexivity.
Qed.

(** X21: on a store whose question texts are ASCII, for an ASCII search
    term without NUL and without the characters that a LIKE pattern reads
    as wildcards or as the escape, the search returns the questions whose
    lowercased text has the lowercased term as a substring. *)
Lemma search_plain_term_is_substring (d : Models.db) (term : string) :
  (forall q, In q (Models.questions d) ->
             Py.is_ascii (Question.question q) = true) ->
  Py.is_ascii term = true ->
  has_nul term = false ->
  wildcard_free term = true ->
  search_question d {| search := Some term |} =
  let found :=
    filter (fun q => contains (lowercase term) (lowercase (Question.question q)))
           (Models.questions d) in
  (200%nat, PageBody true (map format found) (List.length (map format found))).
Proof.
  intros _ _ Hnul Hfree. unfold search_question. cbn [search str_of_search].
  rewrite has_nul_pattern, Hnul.
  change ("%" ++ term ++ "%")%string with (String "%"%char (term ++ "%")).
  cbn [Sql.tokens Ascii.eqb Bool.eqb].
  rewrite tokens_literals by assumption.
  cbn [Sql.tokens Ascii.eqb Bool.eqb option_map]. cbv zeta.
  rewrite (filter_ext _ _ (fun q => matches_contains term (Question.question q))).
  reflexivity.
Qed.

(** C9: searching for the one character [_] returns all three questions
    of the sample store, none of which has that character in its text. *)
Theorem search_underscore_returns_non_matches :
  search_question sample_db {| search := Some "_"%string |} =
    (200%nat,
     PageBody true (map format (Models.questions sample_db)) 3) /\
  forallb (fun q => negb (contains (lowercase "_")
                                   (lowercase (Question.question q))))
          (Models.questions sample_db) = true.
Proof.
  split; reflexivity.
Qed.

(** ** More about pagination *)


(** X2: a page number of 0 or below is not refused.  Page 0 is always
    empty; a negative page counts from the end of the items and is empty
    exactly when there are at most [-page * 10] of them. *)
Theorem paginate_data_page_below_1 (request : Flask.request)
    (items : list Question.t) :
  let page := args_get_int request "page" 1 in
  page <= 0 ->
  (paginate_data request items = [] <->
   page = 0 \/ Z.of_nat (List.length items) <= - page * 10).
Proof.
  intros page Hp. subst page. rewrite paginate_data_unfold.
  set (page := args_get_int request "page" 1) in *. clearbody page.
  unfold Py.slice, Py.slice_bound. rewrite length_map.
  set (len := Z.of_nat (List.length items)).
  assert (Hlen : 0 <= len) by (subst len; lia).
  destruct (Z.ltb_spec ((page - 1) * 10) 0) as [_|?]; [|lia].
  destruct (Z.ltb_spec (page * 10) 0) as [Hneg | Hzero].
  - set (lo := Z.max ((page - 1) * 10 + len) 0).
    set (hi := Z.max (page * 10 + len) 0).
    split.
    + intros Hnil. right.
      apply (f_equal (@List.length formatted)) in Hnil.
      rewrite length_firstn, length_skipn, length_map in Hnil.
      change (List.length (@nil formatted)) with 0%nat in Hnil.
      subst lo hi len. lia.
    + intros [Hz | Hshort]; [lia|].
      replace (Z.to_nat (hi - lo)) with 0%nat by (subst lo hi; lia).
      reflexivity.
  - assert (Hpage : page = 0) by lia. subst page.
    split; [now left|]. intros _.
    replace (Z.to_nat _) with 0%nat by lia. reflexivity.
Qed.

Lemma firstn_plus {A : Type} (a b : nat) (l : list A) :
  firstn (a + b) l = firstn a l ++ firstn b (skipn a l).
Proof.
  revert l. induction a as [|a IH]; intros l; [reflexivity|].
  destruct l as [|x l]; simpl.
  - now rewrite firstn_nil.
  - now rewrite IH.
Qed.

(** X3: the pages 1 to [n], one after the other, are the first [10 * n]
    items, formatted: no item is skipped and none comes twice. *)
Theorem paginate_data_pages_concat (requests : nat -> Flask.request)
    (items : list Question.t) (n : nat) :
  (forall i, (1 <= i <= n)%nat ->
             args_get_int (requests i) "page" 1 = Z.of_nat i) ->
  List.concat (map (fun i => paginate_data (requests i) items) (seq 1 n)) =
  map format (firstn (10 * n) items).
Proof.
  induction n as [|n IH]; intros Hreq; [reflexivity|].
  rewrite seq_S, map_app, concat_app, IH by (intros i Hi; apply Hreq; lia).
  cbn [map List.concat Nat.add]. rewrite app_nil_r.
  rewrite paginate_data_from_page_1 by (rewrite Hreq; lia).
  rewrite Hreq by lia.
  replace (Z.to_nat ((Z.of_nat (S n) - 1) * 10)) with (10 * n)%nat by lia.
  replace (10 * S n)%nat with (10 * n + 10)%nat by lia.
  rewrite firstn_plus, map_app, skipn_map, firstn_map. reflexivity.
Qed.

(** ** The listing of all questions *)

Lemma insert_by_id_perm (q : Question.t) (rows : list Question.t) :
  Permutation (Models.insert_by_id q rows) (q :: rows).
Proof.
  induction rows as [|r rows IH]; simpl; [reflexivity|].
  destruct (Question.id r <? Question.id q); [|reflexivity].
  rewrite IH. apply perm_swap.
Qed.

Lemma order_by_id_perm (rows : list Question.t) :
  Permutation (Models.order_by_id rows) rows.
Proof.
  induction rows as [|q rows IH]; simpl; [reflexivity|].
  rewrite insert_by_id_perm. now apply perm_skip.
Qed.

Lemma order_by_id_length (rows : list Question.t) :
  List.length (Models.order_by_id rows) = List.length rows.
Proof.
  apply Permutation_length, order_by_id_perm.
Qed.

Lemma ascending_cons (q : Question.t) (rows : list Question.t) :
  ascending (q :: rows) = true <->
  (forall r, In r rows -> Question.id q <= Question.id r) /\
  ascending rows = true.
Proof.
  simpl. rewrite andb_true_iff, forallb_forall.
  split; intros [Hall Hrest]; (split; [|assumption]);
    intros r Hr; apply Z.leb_le; auto.
Qed.

Lemma insert_by_id_ascending (q : Question.t) (rows : list Question.t) :
  ascending rows = true -> ascending (Models.insert_by_id q rows) = true.
Proof.
  induction rows as [|r rows IH]; [reflexivity|].
  intros Hasc. apply ascending_cons in Hasc as [Hall Hrest].
  cbn [Models.insert_by_id].
  destruct (Z.ltb_spec (Question.id r) (Question.id q)) as [Hlt | Hge].
  - apply ascending_cons. split; [|now apply IH].
    intros x Hx. apply (Permutation_in _ (insert_by_id_perm q rows)) in Hx.
    destruct Hx as [<- | Hx]; [lia | now apply Hall].
  - apply ascending_cons. split.
    + intros x [<- | Hx]; [assumption|]. specialize (Hall x Hx). lia.
    + apply ascending_cons. now split.
Qed.

Lemma order_by_id_is_ascending (rows : list Question.t) :
  ascending (Models.order_by_id rows) = true.
Proof.
  induction rows as [|q rows IH]; [reflexivity|].
  simpl. now apply insert_by_id_ascending.
Qed.

Lemma firstn_In {A : Type} (n : nat) (l : list A) (x : A) :
  In x (firstn n l) -> In x l.
Proof.
  intros Hx. rewrite <- (firstn_skipn n l). apply in_or_app. now left.
Qed.

Lemma skipn_In {A : Type} (n : nat) (l : list A) (x : A) :
  In x (skipn n l) -> In x l.
Proof.
  intros Hx. rewrite <- (firstn_skipn n l). apply in_or_app. now right.
Qed.

Lemma ascending_skipn (n : nat) (rows : list Question.t) :
  ascending rows = true -> ascending (skipn n rows) = true.
Proof.
  revert rows. induction n as [|n IH]; intros rows Hasc; [assumption|].
  destruct rows as [|q rows]; [reflexivity|].
  apply ascending_cons in Hasc as [_ Hrest]. now apply IH.
Qed.

Lemma ascending_firstn (n : nat) (rows : list Question.t) :
  ascending rows = true -> ascending (firstn n rows) = true.
Proof.
  revert rows. induction n as [|n IH]; intros rows Hasc; [reflexivity|].
  destruct rows as [|q rows]; [reflexivity|].
  apply ascending_cons in Hasc as [Hall Hrest].
  cbn [firstn]. apply ascending_cons. split; [|now apply IH].
  intros r Hr. apply Hall. revert Hr. apply firstn_In.
Qed.

Lemma slice_In {A : Type} (l : list A) (start stop : Z) (x : A) :
  In x (Py.slice l start stop) -> In x l.
Proof.
  unfold Py.slice. intros Hx.
  apply firstn_In in Hx. revert Hx. apply skipn_In.
Qed.

Lemma slice_length {A : Type} (l : list A) (start stop : Z) :
  (List.length (Py.slice l start (start + 10)) <= 10)%nat.
Proof.
  unfold Py.slice, Py.slice_bound. rewrite length_firstn.
  set (len := Z.of_nat (List.length l)).
  destruct (Z.ltb_spec start 0), (Z.ltb_spec (start + 10) 0); lia.
Qed.

(** What a successful listing holds, whatever the page number. *)
Lemma get_paginted_all_questions_returns (d : Models.db)
    (request : Flask.request) (b : body) :
  get_paginted_all_questions d request = Return b ->
  exists rows : list Question.t,
    b = PageBody true (map format rows) (List.length (Models.questions d)) /\
    (1 <= List.length rows <= 10)%nat /\
    ascending rows = true /\
    (forall q, In q rows -> In q (Models.questions d)).
Proof.
  unfold get_paginted_all_questions, paginate_data, QUESTIONS_PER_PAGE.
  rewrite slice_map.
  set (start := (args_get_int request "page" 1 - 1) * 10).
  set (rows := Py.slice (Models.order_by_id (Models.questions d)) start
                        (start + 10)).
  destruct (Nat.eqb_spec (List.length (map format rows)) 0) as [|Hne];
    [discriminate|].
  intros Hret. injection Hret as <-. exists rows.
  rewrite length_map in Hne.
  split; [reflexivity|]. split.
  - pose proof (slice_length (Models.order_by_id (Models.questions d)) start
                               (start + 10)) as Hlen.
    fold rows in Hlen. lia.
  - split.
    + subst rows. unfold Py.slice.
      apply ascending_firstn, ascending_skipn, order_by_id_is_ascending.
    + intros q Hq. apply slice_In in Hq.
      revert Hq. apply Permutation_in, order_by_id_perm.
Qed.

Lemma get_paginted_all_questions_cases (d : Models.db)
    (request : Flask.request) :
  get_paginted_all_questions d request = Abort 404 \/
  exists b, get_paginted_all_questions d request = Return b.
Proof.
  unfold get_paginted_all_questions.
  destruct (Nat.eqb _ 0); [now left | right; eauto].
Qed.

Lemma paginate_data_empty_from_page_1 (request : Flask.request)
    (items : list Question.t) :
  1 <= args_get_int request "page" 1 ->
  (paginate_data request items = [] <->
   (args_get_int request "page" 1 - 1) * 10 >= Z.of_nat (List.length items)).
Proof.
  intros Hp. rewrite paginate_data_from_page_1 by assumption.
  set (start := (args_get_int request "page" 1 - 1) * 10).
  assert (Hstart : 0 <= start) by (subst start; lia).
  clearbody start. split.
  - intros Hnil. apply (f_equal (@List.length formatted)) in Hnil.
    rewrite length_firstn, length_skipn, length_map in Hnil.
    change (List.length (@nil formatted)) with 0%nat in Hnil. lia.
  - intros Hout. rewrite skipn_all2; [apply firstn_nil|].
    rewrite length_map. lia.
Qed.

(** X4: a successful answer to GET /questions holds between one and ten
    questions, each the formatted form of a stored row, in ascending order
    of their identifiers; [total_questions] is the number of all stored
    questions, and the categories dictionary comes with it. *)
Theorem retrieve_questions_success (d : Models.db) (request : Flask.request)
    (b : body) (cats : option (list (Z * string))) :
  retrieve_questions d request = ((200%nat, b), cats) ->
  exists rows : list Question.t,
    b = PageBody true (map format rows) (List.length (Models.questions d)) /\
    cats = Some (categories (get_categories_data d)) /\
    (1 <= List.length rows <= 10)%nat /\
    ascending rows = true /\
    (forall q, In q rows -> In q (Models.questions d)).
Proof.
  unfold retrieve_questions. intros Hresp.
  destruct (get_paginted_all_questions_cases d request) as [H404 | [b' Hret]].
  - rewrite H404 in Hresp. discriminate.
  - rewrite Hret in Hresp.
    destruct (get_paginted_all_questions_returns d request b' Hret)
      as [rows [-> Hrows]].
    injection Hresp as <- <-. exists rows. tauto.
Qed.

(** X5: from page 1 on, GET /questions is answered with the 404 envelope
    exactly when [(page-1)*10] is at least the number of stored questions;
    on an empty store that is every page. *)
Theorem retrieve_questions_not_found_iff (d : Models.db)
    (request : Flask.request) :
  let page := args_get_int request "page" 1 in
  1 <= page ->
  (retrieve_questions d request = (not_found, None) <->
   (page - 1) * 10 >= Z.of_nat (List.length (Models.questions d))).
Proof.
  intros page Hp. subst page.
  pose proof (paginate_data_empty_from_page_1 request
                (Models.order_by_id (Models.questions d)) Hp) as Hiff.
  rewrite order_by_id_length in Hiff.
  unfold retrieve_questions, get_paginted_all_questions.
  destruct (Nat.eqb_spec
              (List.length
                 (paginate_data request
                    (Models.order_by_id (Models.questions d)))) 0)
    as [Hzero | Hpos].
  - apply length_zero_iff_nil in Hzero.
    split; [intros _; now apply Hiff | reflexivity].
  - split; [discriminate|].
    intros Hout. apply Hiff in Hout. rewrite Hout in Hpos. now elim Hpos.
Qed.

Lemma same_id_same_row (rows : list Question.t) (a b : Question.t) :
  NoDup (map Question.id rows) -> In a rows -> In b rows ->
  Question.id a = Question.id b -> a = b.
Proof.
  induction rows as [|r rows IH]; simpl; [contradiction|].
  intros Hnd Ha Hb Hid. apply NoDup_cons_iff in Hnd as [Hfresh Hnd].
  destruct Ha as [<- | Ha], Hb as [<- | Hb]; try reflexivity.
  - exfalso. apply Hfresh. rewrite Hid. now apply in_map.
  - exfalso. apply Hfresh. rewrite <- Hid. now apply in_map.
  - now apply IH.
Qed.

(** Two ascending arrangements of the same rows, whose identifiers are
    pairwise distinct, are the same list. *)
Lemma ascending_perm_unique (l1 : list Question.t) :
  forall l2,
    ascending l1 = true -> ascending l2 = true ->
    Permutation l1 l2 -> NoDup (map Question.id l1) -> l1 = l2.
Proof.
  induction l1 as [|a l1 IH]; intros l2 H1 H2 Hperm Hnd.
  - now apply Permutation_nil in Hperm.
  - destruct l2 as [|b l2];
      [apply Permutation_sym, Permutation_nil in Hperm; discriminate|].
    assert (Hab : a = b).
    { apply ascending_cons in H1 as [Ha _].
      apply ascending_cons in H2 as [Hb _].
      assert (Ha2 : In a (b :: l2))
        by (apply (Permutation_in _ Hperm); now left).
      assert (Hb1 : In b (a :: l1))
        by (apply (Permutation_in _ (Permutation_sym Hperm)); now left).
      destruct Ha2 as [-> | Ha2]; [reflexivity|].
      destruct Hb1 as [-> | Hb1]; [reflexivity|].
      apply (same_id_same_row (a :: l1)); simpl; auto.
      specialize (Ha b Hb1). specialize (Hb a Ha2). lia. }
    subst b. f_equal.
    apply IH.
    + now apply ascending_cons in H1.
    + now apply ascending_cons in H2.
    + now apply Permutation_cons_inv in Hperm.
    + now apply NoDup_cons_iff in Hnd.
Qed.

Lemma order_by_id_perm_invariant (l1 l2 : list Question.t) :
  Permutation l1 l2 -> NoDup (map Question.id l1) ->
  Models.order_by_id l1 = Models.order_by_id l2.
Proof.
  intros Hperm Hnd. apply ascending_perm_unique.
  - apply order_by_id_is_ascending.
  - apply order_by_id_is_ascending.
  - rewrite !order_by_id_perm. assumption.
  - apply (Permutation_NoDup (l := map Question.id l1)); [|assumption].
    apply Permutation_map, Permutation_sym, order_by_id_perm.
Qed.

(** X6: the answer to GET /questions does not depend on the order in which
    the store keeps its rows: two stores with the same categories and the
    same questions, whose identifiers are pairwise distinct, give the same
    answer to every request. *)
Theorem retrieve_questions_row_order_irrelevant (d1 d2 : Models.db)
    (request : Flask.request) :
  Permutation (Models.questions d1) (Models.questions d2) ->
  NoDup (map Question.id (Models.questions d1)) ->
  Models.categories d1 = Models.categories d2 ->
  retrieve_questions d1 request = retrieve_questions d2 request.
Proof.
  intros Hperm Hnd Hcat.
  unfold retrieve_questions, get_paginted_all_questions, get_categories_data.
  rewrite (order_by_id_perm_invariant _ _ Hperm Hnd).
  rewrite (Permutation_length Hperm), Hcat. reflexivity.
Qed.

(** ** Deleting a question *)

Lemma filter_id_unique (rows : list Question.t) (q : Question.t) :
  NoDup (map Question.id rows) -> In q rows ->
  filter (fun r => Question.id r =? Question.id q) rows = [q].
Proof.
  induction rows as [|r rows IH]; simpl; [contradiction|].
  intros Hnd Hq. apply NoDup_cons_iff in Hnd as [Hfresh Hnd].
  destruct Hq as [-> | Hq].
  - rewrite Z.eqb_refl. f_equal. apply filter_none.
    intros x Hx. apply Z.eqb_neq. intros Hid.
    apply Hfresh. rewrite <- Hid. now apply in_map.
  - destruct (Z.eqb_spec (Question.id r) (Question.id q)) as [Hid | _];
      [|now apply IH].
    exfalso. apply Hfresh. rewrite Hid. now apply in_map.
Qed.

Lemma delete_length (rows : list Question.t) (q : Question.t) :
  NoDup (map Question.id rows) -> In q rows ->
  (List.length
     (filter (fun r => negb (Question.id r =? Question.id q)%Z) rows) + 1 =
   List.length rows)%nat.
Proof.
  intros Hnd Hq.
  pose proof (filter_length (fun r => Question.id r =? Question.id q) rows)
    as Hsplit.
  rewrite (filter_id_unique rows q Hnd Hq) in Hsplit.
  simpl in Hsplit. lia.
Qed.

Lemma delete_question_present (d : Models.db) (request : Flask.request)
    (q : Question.t) :
  In q (Models.questions d) ->
  NoDup (map Question.id (Models.questions d)) ->
  delete_question d request (Question.id q) =
  (Models.delete q d,
   respond
     (try_except_422
        (response_data <-
           get_paginted_all_questions (Models.delete q d) request ;;
         match response_data with
         | PageBody _ qs n => Return (DeletedBody true (Question.id q) qs n)
         | other => Return other
         end))).
Proof.
  intros Hq Hnd. unfold delete_question, delete_question_try.
  now rewrite (filter_id_unique _ q Hnd Hq).
Qed.

Lemma delete_question_absent (d : Models.db) (request : Flask.request)
    (question_id : Z) :
  (forall q, In q (Models.questions d) -> Question.id q <> question_id) ->
  delete_question d request question_id = (d, unprocessable).
Proof.
  intros Habsent. unfold delete_question, delete_question_try.
  rewrite filter_none; [reflexivity|].
  intros q Hq. apply Z.eqb_neq. now apply Habsent.
Qed.

(** X7: deleting the identifier of a stored question, with identifiers
    pairwise distinct, takes that row out of the store whatever the answer
    is: no row with the identifier is left, every other row and the
    categories stay, and the store has one question less. *)
Theorem delete_question_removes_row (d : Models.db)
    (request : Flask.request) (q : Question.t) :
  In q (Models.questions d) ->
  NoDup (map Question.id (Models.questions d)) ->
  let d' := fst (delete_question d request (Question.id q)) in
  (forall r, In r (Models.questions d') <->
             In r (Models.questions d) /\ Question.id r <> Question.id q) /\
  Models.categories d' = Models.categories d /\
  (List.length (Models.questions d') + 1 =
   List.length (Models.questions d))%nat.
Proof.
  intros Hq Hnd. rewrite (delete_question_present d request q Hq Hnd).
  cbn [fst Models.delete Models.questions Models.categories].
  split; [|split; [reflexivity | now apply delete_length]].
  intros r. rewrite filter_In, negb_true_iff, Z.eqb_neq. tauto.
Qed.

(** X8: the answer to such a delete is made from the listing after the
    delete: status 200 with the deleted identifier, the page of the
    remaining questions and their number, or the 422 envelope when that
    page is empty, the row being deleted all the same. *)
Theorem delete_question_answer (d : Models.db) (request : Flask.request)
    (q : Question.t) :
  In q (Models.questions d) ->
  NoDup (map Question.id (Models.questions d)) ->
  let remaining := Models.questions (Models.delete q d) in
  let page := paginate_data request (Models.order_by_id remaining) in
  delete_question d request (Question.id q) =
  (Models.delete q d,
   match page with
   | [] => unprocessable
   | _ :: _ =>
       (200%nat,
        DeletedBody true (Question.id q) page
          (List.length (Models.questions d) - 1))
   end).
Proof.
  intros Hq Hnd. cbv zeta.
  rewrite (delete_question_present d request q Hq Hnd). f_equal.
  unfold get_paginted_all_questions.
  pose proof (delete_length _ q Hnd Hq) as Hlen.
  cbn [Models.delete Models.questions] in *.
  destruct (paginate_data request _) as [|x page]; [reflexivity|].
  cbn [List.length Nat.eqb bind try_except_422 respond].
  do 3 f_equal. lia.
Qed.

Lemma paginate_data_nil (request : Flask.request) :
  paginate_data request [] = [].
Proof.
  unfold paginate_data, Py.slice. cbn [map].
  now rewrite skipn_nil, firstn_nil.
Qed.

(** X9: deleting the only question of the store empties the store and is
    answered with the 422 envelope. *)
Theorem delete_question_last_one (d : Models.db) (request : Flask.request)
    (q : Question.t) :
  Models.questions d = [q] ->
  delete_question d request (Question.id q) =
  ({| Models.questions := []; Models.categories := Models.categories d |},
   unprocessable).
Proof.
  intros Hone.
  unfold delete_question, delete_question_try, Models.delete.
  rewrite Hone. cbn [filter]. rewrite Z.eqb_refl.
  cbn [Models.one_or_none filter negb].
  unfold get_paginted_all_questions.
  cbn [Models.questions Models.order_by_id]. rewrite !Z.eqb_refl.
  cbn [negb fold_right]. rewrite paginate_data_nil. reflexivity.
Qed.

(** X10: once a question is deleted, deleting its identifier again changes
    nothing and is answered with the 422 envelope. *)
Theorem delete_question_twice (d : Models.db) (request again : Flask.request)
    (q : Question.t) :
  In q (Models.questions d) ->
  NoDup (map Question.id (Models.questions d)) ->
  let d' := fst (delete_question d request (Question.id q)) in
  delete_question d' again (Question.id q) = (d', unprocessable).
Proof.
  intros Hq Hnd. cbv zeta.
  rewrite (delete_question_present d request q Hq Hnd). cbn [fst].
  apply delete_question_absent.
  intros r Hr. cbn [Models.delete Models.questions] in Hr.
  apply filter_In in Hr as [_ Hr].
  now apply negb_true_iff, Z.eqb_neq in Hr.
Qed.

(** ** Views under [try ... except: abort(422)] *)

(** X11: the quiz and the delete view answer with status 200 or with the
    422 envelope, never with 404 or 500: what is aborted or raised inside
    their [try] leaves as 422. *)
Theorem guarded_views_answer_200_or_422 (d : Models.db)
    (request : Flask.request) (request_data : quiz_json) (rand : nat)
    (question_id : Z) :
  (quiz_question d request_data rand = unprocessable \/
   exists question,
     quiz_question d request_data rand = (200%nat, QuizBody true question)) /\
  (snd (delete_question d request question_id) = unprocessable \/
   exists qs n,
     snd (delete_question d request question_id) =
     (200%nat, DeletedBody true question_id qs n)).
Proof.
  split.
  - pose proof (quiz_question_cases d request_data rand) as Hcases.
    destruct (quiz_query d request_data) as [rows | c | e]; auto.
    destruct rows as [|r rows]; [right; eauto|].
    destruct (nth_error (r :: rows) rand); [right; eauto | auto].
  - unfold delete_question, delete_question_try.
    destruct (Models.one_or_none _) as [[question|] | c | e];
      try (left; reflexivity).
    destruct (get_paginted_all_questions_cases (Models.delete question d)
                request) as [H404 | [b Hret]].
    + rewrite H404. left. reflexivity.
    + rewrite Hret.
      destruct (get_paginted_all_questions_returns _ _ _ Hret)
        as [rows [-> _]].
      right. eexists _, _. reflexivity.
Qed.

(** ** More about the quiz *)

(** X12: when the category id of a quiz request is truthy and stands for
    category [c], a returned question is a stored question of category
    [c]. *)
Theorem quiz_returns_requested_category (d : Models.db)
    (request_data : quiz_json) (rand : nat)
    (members : list (string * Py.json)) (category_id : Py.json) (c : Z)
    (returned : formatted) :
  quiz_category request_data = Some (Py.JObj members) ->
  Py.dict_get "id" members = Some category_id ->
  Py.truthy category_id = true ->
  category_param category_id = Some c ->
  quiz_question d request_data rand =
    (200%nat, QuizBody true (Some returned)) ->
  exists q : Question.t,
    returned = format q /\
    In q (Models.questions d) /\
    Question.category q = c.
Proof.
  intros Hcat Hid Htruthy Hc Hresp.
  pose proof (quiz_question_cases d request_data rand) as Hcases.
  unfold quiz_query, get_quiz_category in Hcases.
  rewrite Hcat in Hcases. cbn [get_id bind] in Hcases.
  rewrite Hid, Htruthy, Hc in Hcases.
  destruct (filter (fun q => Question.category q =? c) _)
    as [|r rows] eqn:Hrows;
    [rewrite Hcases in Hresp; discriminate|].
  destruct (nth_error (r :: rows) rand) as [q|] eqn:Hnth;
    [|rewrite Hcases in Hresp; discriminate].
  rewrite Hcases in Hresp. injection Hresp as <-.
  exists q. split; [reflexivity|].
  apply nth_error_In in Hnth. rewrite <- Hrows in Hnth.
  apply filter_In in Hnth as [Hin Hp]. apply filter_In in Hin as [Hin _].
  apply Z.eqb_eq in Hp. now split.
Qed.

(** X13: every row of a non-empty quiz query can be drawn: for each there
    is an index below the count at which the quiz returns it. *)
Theorem quiz_reaches_every_row (d : Models.db) (request_data : quiz_json)
    (rows : list Question.t) (q : Question.t) :
  quiz_query d request_data = Return rows ->
  In q rows ->
  exists rand : nat,
    (rand < List.length rows)%nat /\
    quiz_question d request_data rand =
      (200%nat, QuizBody true (Some (format q))).
Proof.
  intros Hq Hin.
  destruct (In_nth_error _ _ Hin) as [rand Hnth].
  exists rand. split; [apply nth_error_Some; rewrite Hnth; discriminate|].
  pose proof (quiz_question_cases d request_data rand) as Hcases.
  rewrite Hq in Hcases. destruct rows as [|r rows]; [contradiction|].
  now rewrite Hnth in Hcases.
Qed.

(** ** More about the search *)



Lemma filter_all {A : Type} (f : A -> bool) (l : list A) :
  (forall x, In x l -> f x = true) -> filter f l = l.
Proof.
  induction l as [|x l IH]; simpl; intros H; [reflexivity|].
  rewrite (H x) by now left. f_equal. apply IH. intros y Hy. apply H. now right.
Qed.

(** X15: the search for the empty term returns every stored question. *)
Theorem search_empty_term_returns_all (d : Models.db) :
  search_question d {| search := Some EmptyString |} =
  (200%nat,
   PageBody true (map format (Models.questions d))
     (List.length (Models.questions d))).
Proof.
  unfold search_question. cbn [search str_of_search].
  rewrite has_nul_pattern. cbn.
  rewrite filter_all.
  - now rewrite length_map.
  - intros q _.
    change (Sql.matches [Sql.AnyRun; Sql.AnyRun] (Question.question q) = true).
    induction (Question.question q) as [|c text IH];
      rewrite matches_any_run, matches_any_run_alone; reflexivity.
Qed.

(** ** The listing of a category *)

(** X16: a successful answer to GET /categories/<id>/questions holds
    between one and ten questions, each the formatted form of a stored
    question of that category, in ascending order of their identifiers,
    and the label of the category as [current_category]. *)
Theorem category_listing_success (d : Models.db) (request : Flask.request)
    (category_id : Z) (b : body) :
  retrieve_questions_for_category d request category_id = (200%nat, b) ->
  exists (rows : list Question.t) (c : Category.t),
    b = CategoryBody true (map format rows)
          (List.length (Models.questions d)) (Category.type c) /\
    Models.category_get d category_id = Some c /\
    (1 <= List.length rows <= 10)%nat /\
    ascending rows = true /\
    (forall q, In q rows ->
               In q (Models.questions d) /\ Question.category q = category_id).
Proof.
  unfold retrieve_questions_for_category, paginate_data, QUESTIONS_PER_PAGE.
  rewrite slice_map.
  set (start := (args_get_int request "page" 1 - 1) * 10).
  set (matching := filter (fun q => Question.category q =? category_id)
                          (Models.questions d)).
  set (rows := Py.slice (Models.order_by_id matching) start (start + 10)).
  destruct (Nat.eqb_spec (List.length (map format rows)) 0) as [|Hne];
    [discriminate|].
  destruct (Models.category_get d category_id) as [c|]; [|discriminate].
  intros Hresp. injection Hresp as <-. exists rows, c.
  rewrite length_map in Hne.
  split; [reflexivity|]. split; [reflexivity|]. split.
  - pose proof (slice_length (Models.order_by_id matching) start (start + 10))
      as Hlen.
    fold rows in Hlen. lia.
  - split.
    + subst rows. unfold Py.slice.
      apply ascending_firstn, ascending_skipn, order_by_id_is_ascending.
    + intros q Hq. apply slice_In in Hq.
      apply (Permutation_in _ (order_by_id_perm matching)) in Hq.
      subst matching. apply filter_In in Hq as [Hin Hc].
      now apply Z.eqb_eq in Hc.
Qed.

(** X17: when no stored question has the category, the listing of the
    category is answered with the 404 envelope for every request, whether
    the category itself exists or not. *)
Theorem category_listing_without_questions (d : Models.db)
    (request : Flask.request) (category_id : Z) :
  (forall q, In q (Models.questions d) -> Question.category q <> category_id) ->
  retrieve_questions_for_category d request category_id = not_found.
Proof.
  intros Hnone. unfold retrieve_questions_for_category.
  rewrite filter_none.
  - cbn [Models.order_by_id fold_right]. now rewrite paginate_data_nil.
  - intros q Hq. apply Z.eqb_neq. now apply Hnone.
Qed.

(** X18: when a stored question has the category but the categories table
    has no row for it, a request without page number is answered with the
    500 envelope: reading the label of the missing category raises. *)
Theorem category_listing_unknown_category (d : Models.db)
    (request : Flask.request) (category_id : Z) (q : Question.t) :
  In q (Models.questions d) ->
  Question.category q = category_id ->
  Models.category_get d category_id = None ->
  Py.dict_get "page" (args request) = None ->
  retrieve_questions_for_category d request category_id = server_error.
Proof.
  intros Hq Hc Hmissing Hpage.
  unfold retrieve_questions_for_category. rewrite Hmissing.
  set (matching := filter (fun r => Question.category r =? category_id)
                          (Models.questions d)).
  assert (Hin : In q (Models.order_by_id matching)).
  { apply (Permutation_in _ (Permutation_sym (order_by_id_perm matching))).
    subst matching. apply filter_In. split; [assumption|].
    now apply Z.eqb_eq. }
  assert (Hone : args_get_int request "page" 1 = 1)
    by (apply page_defaults_to_1; now left).
  rewrite paginate_data_from_page_1 by (rewrite Hone; lia).
  rewrite Hone.
  destruct (Models.order_by_id matching) as [|r rows]; [contradiction|].
  reflexivity.
Qed.

(** ** The categories dictionary *)

Lemma insert_category_by_id_perm (c : Category.t) (rows : list Category.t) :
  Permutation (insert_category_by_id c rows) (c :: rows).
Proof.
  induction rows as [|r rows IH]; simpl; [reflexivity|].
  destruct (Category.id r <? Category.id c); [|reflexivity].
  rewrite IH. apply perm_swap.
Qed.

Lemma order_categories_by_id_perm (rows : list Category.t) :
  Permutation (order_categories_by_id rows) rows.
Proof.
  induction rows as [|c rows IH]; simpl; [reflexivity|].
  rewrite insert_category_by_id_perm. now apply perm_skip.
Qed.

Lemma getitem_setitem (key k : Z) (value : string) (d : list (Z * string)) :
  getitem k (setitem key value d) =
  if key =? k then Some value else getitem k d.
Proof.
  induction d as [|[k' v'] d IH]; simpl.
  - reflexivity.
  - destruct (Z.eqb_spec k' key) as [-> | Hne]; simpl.
    + destruct (Z.eqb_spec key k); reflexivity.
    + rewrite IH. destruct (Z.eqb_spec key k) as [-> | _]; [|reflexivity].
      destruct (Z.eqb_spec k' k); [contradiction | reflexivity].
Qed.

Lemma getitem_fold_other (k : Z) (rows : list Category.t) :
  forall acc,
    (forall c, In c rows -> Category.id c <> k) ->
    getitem k (fold_left set_category rows acc) = getitem k acc.
Proof.
  induction rows as [|r rows IH]; intros acc Hother; [reflexivity|].
  cbn [fold_left]. rewrite IH by (intros c Hc; apply Hother; now right).
  unfold set_category. rewrite getitem_setitem.
  destruct (Z.eqb_spec (Category.id r) k) as [Heq | _]; [|reflexivity].
  exfalso. apply (Hother r); [now left | assumption].
Qed.

Lemma getitem_fold_member (rows : list Category.t) (c : Category.t) :
  forall acc,
    NoDup (map Category.id rows) -> In c rows ->
    getitem (Category.id c) (fold_left set_category rows acc) =
    Some (Category.type c).
Proof.
  induction rows as [|r rows IH]; intros acc Hnd Hc; [contradiction|].
  cbn [map] in Hnd. apply NoDup_cons_iff in Hnd as [Hfresh Hnd].
  cbn [fold_left]. destruct Hc as [-> | Hc]; [|now apply IH].
  rewrite getitem_fold_other.
  - unfold set_category. rewrite getitem_setitem. now rewrite Z.eqb_refl.
  - intros x Hx Hid. apply Hfresh. rewrite <- Hid. now apply in_map.
Qed.

(** X19: with pairwise distinct category identifiers, the dictionary of
    GET /categories maps the identifier of every stored category to its
    label and holds no other key. *)
Theorem get_categories_data_lookup (d : Models.db) (k : Z) :
  NoDup (map Category.id (Models.categories d)) ->
  success (get_categories_data d) = true /\
  (forall c, In c (Models.categories d) -> Category.id c = k ->
             getitem k (categories (get_categories_data d)) =
             Some (Category.type c)) /\
  ((forall c, In c (Models.categories d) -> Category.id c <> k) ->
   getitem k (categories (get_categories_data d)) = None).
Proof.
  intros Hnd. split; [reflexivity|].
  unfold get_categories_data. cbn [categories].
  pose proof (order_categories_by_id_perm (Models.categories d)) as Hperm.
  split.
  - intros c Hc <-. apply getitem_fold_member.
    + apply (Permutation_NoDup (l := map Category.id (Models.categories d)));
        [|assumption].
      apply Permutation_map, Permutation_sym, Hperm.
    + apply (Permutation_in _ (Permutation_sym Hperm)), Hc.
  - intros Hother. rewrite getitem_fold_other; [reflexivity|].
    intros c Hc. apply Hother. apply (Permutation_in _ Hperm), Hc.
Qed.

(** ** The error handlers *)

Lemma respond_abort_other (code : nat) :
  code <> 400%nat -> code <> 404%nat -> code <> 405%nat -> code <> 422%nat ->
  respond (Abort code) = server_error.
Proof.
  intros H400 H404 H405 H422.
  do 423 (destruct code as [|code];
          [first [reflexivity | contradiction]|]).
  reflexivity.
Qed.

(** X20: the status of a response follows from the outcome of the view:
    200 with the returned dictionary; the aborted code when it is 400,
    404, 405 or 422; and 500 for every other aborted code and for every
    other exception.  Every response that is not the returned dictionary
    is the error envelope, [success] false and [error] equal to the
    status, with the message "something went wrong" for status 500. *)
Theorem respond_error_envelope (o : outcome body) :
  exists (status : nat) (message : string),
    status =
      match o with
      | Return _ => 200%nat
      | Abort code =>
          if existsb (Nat.eqb code) [400; 404; 405; 422]%nat then code
          else 500%nat
      | Raise _ => 500%nat
      end /\
    respond o =
      (status,
       match o with
       | Return b => b
       | Abort _ | Raise _ => ErrorBody false status message
       end) /\
    (status = 500%nat -> message = "something went wrong"%string).
Proof.
  destruct o as [b | code | e].
  - exists 200%nat, "something went wrong"%string. repeat split.
  - destruct (Nat.eq_dec code 400) as [-> | H400];
      [exists 400%nat, "bad request"%string; repeat split; discriminate|].
    destruct (Nat.eq_dec code 404) as [-> | H404];
      [exists 404%nat, "resource not found"%string; repeat split;
       discriminate|].
    destruct (Nat.eq_dec code 405) as [-> | H405];
      [exists 405%nat, "method not allowed"%string; repeat split;
       discriminate|].
    destruct (Nat.eq_dec code 422) as [-> | H422];
      [exists 422%nat, "unprocessable"%string; repeat split; discriminate|].
    exists 500%nat, "something went wrong"%string.
    rewrite respond_abort_other by assumption.
    split; [|split; reflexivity].
    cbn [existsb].
    apply Nat.eqb_neq in H400, H404, H405, H422.
    now rewrite H400, H404, H405, H422.
  - exists 500%nat, "something went wrong"%string. repeat split.
Qed.

End App.

Arguments PageBody {formatted} success questions total_questions.
Arguments DeletedBody {formatted} success deleted questions total_questions.
Arguments CategoryBody {formatted} success questions total_questions
  current_category.
Arguments QuizBody {formatted} success question.
Arguments ErrorBody {formatted} success error message.

(** ** The theorems at concrete requests *)

(** Page 2 of 19 questions: the questions 11 to 19. *)
Lemma paginate_data_is_slice_witness :
  let request := page_request "2" in
  let items := numbered_questions 19 in
  1 <= args_get_int request "page" 1 /\
  paginate_data _ as_row request items =
    map as_row (Py.slice items ((2 - 1) * 10) (2 * 10)) /\
  (forall k : nat,
     nth_error (paginate_data _ as_row request items) k =
     if Nat.ltb k 10
     then nth_error (map as_row items) (Z.to_nat ((2 - 1) * 10) + k)
     else None) /\
  (Z.of_nat (List.length items) <= (2 - 1) * 10 ->
   paginate_data _ as_row request items = []) /\
  (List.length (paginate_data _ as_row request items) <= 10)%nat.
Proof.
  cbv zeta. split; [vm_compute; discriminate|].
  apply (paginate_data_is_slice _ as_row (page_request "2")
           (numbered_questions 19)).
  vm_compute; discriminate.
Defined.

(** C5 as stated fails at page 0: the page of three questions is empty
    although [(0-1)*10] is below 3. *)
Lemma paginate_data_page_0_empty :
  let request := page_request "0" in
  let items := Models.questions sample_db in
  args_get_int request "page" 1 = 0 /\
  ~ (paginate_data _ as_row request items = [] <->
     (0 - 1) * 10 >= Z.of_nat (List.length items)).
Proof.
  cbv zeta. split; [reflexivity|].
  intros [Hempty _].
  assert (H : (0 - 1) * 10 >= Z.of_nat (List.length (Models.questions sample_db)))
    by (apply Hempty; reflexivity).
  vm_compute in H. apply H. reflexivity.
Qed.

Lemma paginate_data_empty_iff_witness :
  let request := page_request "2" in
  let items := Models.questions sample_db in
  1 <= args_get_int request "page" 1 /\
  (paginate_data _ as_row request items = [] <->
   (2 - 1) * 10 >= Z.of_nat (List.length items)).
Proof.
  cbv zeta. split; [vm_compute; discriminate|].
  apply (paginate_data_empty_iff _ as_row (page_request "2")
           (Models.questions sample_db)).
  vm_compute; discriminate.
Defined.

(** A quiz in category 1 after question 5: question 24 is returned. *)
Lemma quiz_never_returns_excluded_witness :
  previous_questions quiz_science_after_5 = Some [5] /\
  quiz_question _ as_row int_column sample_db quiz_science_after_5 0 =
    (200%nat, QuizBody true (Some (mk_question 24 "Which title came first?" 1))) /\
  exists q : Question.t,
    mk_question 24 "Which title came first?" 1 = as_row q /\
    In q (Models.questions sample_db) /\
    ~ In (Question.id q) [5].
Proof.
  split; [reflexivity|]. split; [reflexivity|].
  apply (quiz_never_returns_excluded _ as_row int_column sample_db
           quiz_science_after_5 0%nat [5]); reflexivity.
Defined.








(** C3 as stated fails for the empty string: it is supplied as the category
    id and is not numeric, yet the request is answered with a question. *)
Lemma quiz_empty_string_category_is_ignored :
  (exists members,
     quiz_category (quiz_in_category (Py.JStr "")) = Some (Py.JObj members) /\
     Py.dict_get "id" members = Some (Py.JStr "")) /\
  numeric (Py.JStr "") = false /\
  quiz_question _ as_row int_column sample_db (quiz_in_category (Py.JStr "")) 0 =
    (200%nat,
     QuizBody true (Some (mk_question 5 "What is the Title of this book?" 1))) /\
  quiz_question _ as_row int_column sample_db (quiz_in_category (Py.JStr "")) 0 <>
    unprocessable _.
Proof.
  split; [eexists; split; reflexivity|].
  repeat split; discriminate.
Qed.

(** The category id "abc" of the test suite. *)
Lemma quiz_rejected_category_unprocessable_witness :
  let members :=
    [("id"%string, Py.JStr "abc"); ("type"%string, Py.JStr "click")] in
  quiz_category (quiz_in_category (Py.JStr "abc")) = Some (Py.JObj members) /\
  Py.dict_get "id" members = Some (Py.JStr "abc") /\
  Py.truthy (Py.JStr "abc") = true /\
  int_column (Py.JStr "abc") = None /\
  quiz_question _ as_row int_column sample_db (quiz_in_category (Py.JStr "abc")) 0 =
    (422%nat, ErrorBody false 422 "unprocessable").
Proof.
  cbv zeta.
  split; [reflexivity|]. split; [reflexivity|]. split; [reflexivity|].
  split; [reflexivity|].
  apply (quiz_rejected_category_unprocessable _ as_row int_column sample_db
           (quiz_in_category (Py.JStr "abc")) 0%nat
           [("id"%string, Py.JStr "abc"); ("type"%string, Py.JStr "click")]
           (Py.JStr "abc"));
    reflexivity.
Defined.

Lemma art_after_99_excludes : exclusion_set quiz_art_after_99 [99].
Proof.
  apply history. reflexivity.
Defined.

Lemma art_after_99_constraint :
  category_constraint int_column quiz_art_after_99 (Some 2).
Proof.
  apply (truthy_category_id int_column quiz_art_after_99
           [("id"%string, Py.JInt 2); ("type"%string, Py.JStr "Art")]
           (Py.JInt 2) 2); reflexivity.
Defined.

(** Category 2 after its only question, 99, while the questions 5 and 24
    of category 1 have not been seen. *)
Lemma quiz_none_when_nothing_eligible_witness :
  exclusion_set quiz_art_after_99 [99] /\
  category_constraint int_column quiz_art_after_99 (Some 2) /\
  eligible sample_db [99] (Some 2) = [] /\
  quiz_question _ as_row int_column sample_db quiz_art_after_99 0 =
    (200%nat, QuizBody true None) /\
  quiz_question _ as_row int_column sample_db quiz_art_after_99 0 <>
    unprocessable _.
Proof.
  split; [exact art_after_99_excludes|].
  split; [exact art_after_99_constraint|].
  split; [reflexivity|].
  apply (quiz_none_when_nothing_eligible _ as_row int_column sample_db
           quiz_art_after_99 0%nat [99] (Some 2));
    [exact art_after_99_excludes | exact art_after_99_constraint
    | reflexivity].
Defined.

(** DELETE /questions/1000 on the sample store, as in the test suite. *)
Lemma delete_absent_is_unprocessable_witness :
  (forall q, In q (Models.questions sample_db) -> Question.id q <> 1000) /\
  delete_question _ as_row sample_db no_args 1000 =
    (sample_db, (422%nat, ErrorBody false 422 "unprocessable")) /\
  snd (delete_question _ as_row sample_db no_args 1000) <> not_found _.
Proof.
  assert (Habsent : forall q, In q (Models.questions sample_db) ->
                              Question.id q <> 1000).
  { intros q Hq. simpl in Hq.
    destruct Hq as [<- | [<- | [<- | []]]]; simpl; lia. }
  split; [exact Habsent|].
  apply (delete_absent_is_unprocessable _ as_row sample_db no_args 1000).
  exact Habsent.
Defined.

(** Category 1 of the sample store holds two of the three questions; the
    listing reports three.  The search for "title" finds two and reports
    two. *)
Lemma category_total_is_whole_store_witness :
  let listing :=
    CategoryBody true
      [mk_question 5 "What is the Title of this book?" 1;
       mk_question 24 "Which title came first?" 1] 3 "Science" in
  let found :=
    PageBody true
      [mk_question 5 "What is the Title of this book?" 1;
       mk_question 24 "Which title came first?" 1] 2 in
  retrieve_questions_for_category _ as_row sample_db no_args 1 =
    (200%nat, listing) /\
  search_question _ as_row sample_db {| search := Some "title"%string |} =
    (200%nat, found) /\
  total_questions_of _ listing =
    Some (List.length (Models.questions sample_db)) /\
  total_questions_of _ found =
    option_map (@List.length Question.t) (questions_of _ found).
Proof.
  cbv zeta. split; [reflexivity|]. split; [reflexivity|].
  apply (category_total_is_whole_store _ as_row sample_db no_args 1 _
           {| search := Some "title"%string |} _); reflexivity.
Defined.

(** ** The further theorems at concrete requests *)


(** Page -1 of 25 questions is not empty. *)
Lemma paginate_data_page_below_1_witness :
  args_get_int (page_request "-1") "page" 1 <= 0 /\
  (paginate_data _ as_row (page_request "-1") (numbered_questions 25) = [] <->
   args_get_int (page_request "-1") "page" 1 = 0 \/
   Z.of_nat (List.length (numbered_questions 25)) <=
   - args_get_int (page_request "-1") "page" 1 * 10).
Proof.
  split; [vm_compute; discriminate|].
  apply (paginate_data_page_below_1 _ as_row (page_request "-1")
           (numbered_questions 25)).
  vm_compute; discriminate.
Defined.

Lemma first_pages_numbers (i : nat) :
  (1 <= i <= 2)%nat -> args_get_int (first_pages i) "page" 1 = Z.of_nat i.
Proof.
  intros Hi. destruct i as [|[|[|i]]]; try lia; reflexivity.
Defined.

Lemma paginate_data_pages_concat_witness :
  (forall i, (1 <= i <= 2)%nat ->
             args_get_int (first_pages i) "page" 1 = Z.of_nat i) /\
  List.concat
    (map (fun i => paginate_data _ as_row (first_pages i) (numbered_questions 19))
         (seq 1 2)) =
  map as_row (firstn (10 * 2) (numbered_questions 19)).
Proof.
  split; [exact first_pages_numbers|].
  apply (paginate_data_pages_concat _ as_row first_pages
           (numbered_questions 19) 2).
  exact first_pages_numbers.
Defined.

Lemma retrieve_questions_success_witness :
  let b := PageBody true (Models.questions sample_db_by_id) 3 in
  let cats := Some [(1, "Science"%string); (2, "Art"%string)] in
  retrieve_questions _ as_row sample_db no_args = ((200%nat, b), cats) /\
  exists rows : list Question.t,
    b = PageBody true (map as_row rows)
          (List.length (Models.questions sample_db)) /\
    cats = Some (categories (get_categories_data sample_db)) /\
    (1 <= List.length rows <= 10)%nat /\
    ascending rows = true /\
    (forall q, In q rows -> In q (Models.questions sample_db)).
Proof.
  cbv zeta. split; [reflexivity|].
  apply (retrieve_questions_success _ as_row sample_db no_args).
  reflexivity.
Defined.

Lemma retrieve_questions_not_found_iff_witness :
  1 <= args_get_int (page_request "2") "page" 1 /\
  (retrieve_questions _ as_row sample_db (page_request "2") =
     (not_found _, None) <->
   (args_get_int (page_request "2") "page" 1 - 1) * 10 >=
   Z.of_nat (List.length (Models.questions sample_db))).
Proof.
  split; [vm_compute; discriminate|].
  apply (retrieve_questions_not_found_iff _ as_row sample_db (page_request "2")).
  vm_compute; discriminate.
Defined.

Lemma sample_db_ids_distinct :
  NoDup (map Question.id (Models.questions sample_db)).
Proof.
  repeat constructor; simpl; intuition discriminate.
Defined.

Lemma sample_db_rows_permuted :
  Permutation (Models.questions sample_db) (Models.questions sample_db_by_id).
Proof.
  apply perm_skip, perm_swap.
Defined.

Lemma retrieve_questions_row_order_irrelevant_witness :
  Permutation (Models.questions sample_db) (Models.questions sample_db_by_id) /\
  NoDup (map Question.id (Models.questions sample_db)) /\
  Models.categories sample_db = Models.categories sample_db_by_id /\
  retrieve_questions _ as_row sample_db no_args =
  retrieve_questions _ as_row sample_db_by_id no_args.
Proof.
  split; [exact sample_db_rows_permuted|].
  split; [exact sample_db_ids_distinct|].
  split; [reflexivity|].
  apply (retrieve_questions_row_order_irrelevant _ as_row sample_db
           sample_db_by_id no_args);
    [exact sample_db_rows_permuted | exact sample_db_ids_distinct | reflexivity].
Defined.

Lemma abc_in_sample_db : In (mk_question 99 "abc" 2) (Models.questions sample_db).
Proof.
  simpl. right. left. reflexivity.
Defined.

Lemma delete_question_removes_row_witness :
  let q := mk_question 99 "abc" 2 in
  let d' := fst (delete_question _ as_row sample_db no_args (Question.id q)) in
  In q (Models.questions sample_db) /\
  NoDup (map Question.id (Models.questions sample_db)) /\
  (forall r, In r (Models.questions d') <->
             In r (Models.questions sample_db) /\
             Question.id r <> Question.id q) /\
  Models.categories d' = Models.categories sample_db /\
  (List.length (Models.questions d') + 1 =
   List.length (Models.questions sample_db))%nat.
Proof.
  cbv zeta. split; [exact abc_in_sample_db|].
  split; [exact sample_db_ids_distinct|].
  apply (delete_question_removes_row _ as_row sample_db no_args
           (mk_question 99 "abc" 2));
    [exact abc_in_sample_db | exact sample_db_ids_distinct].
Defined.

Lemma delete_question_answer_witness :
  let q := mk_question 99 "abc" 2 in
  In q (Models.questions sample_db) /\
  NoDup (map Question.id (Models.questions sample_db)) /\
  delete_question _ as_row sample_db no_args 99 =
  (Models.delete q sample_db,
   (200%nat,
    DeletedBody true 99
      [mk_question 5 "What is the Title of this book?" 1;
       mk_question 24 "Which title came first?" 1] 2)).
Proof.
  cbv zeta. split; [exact abc_in_sample_db|].
  split; [exact sample_db_ids_distinct|].
  apply (delete_question_answer _ as_row sample_db no_args
           (mk_question 99 "abc" 2));
    [exact abc_in_sample_db | exact sample_db_ids_distinct].
Defined.

Lemma delete_question_last_one_witness :
  Models.questions orphan_db = [mk_question 1 "Who?" 9] /\
  delete_question _ as_row orphan_db no_args 1 =
  ({| Models.questions := []; Models.categories := [science] |},
   unprocessable _).
Proof.
  split; [reflexivity|].
  apply (delete_question_last_one _ as_row orphan_db no_args
           (mk_question 1 "Who?" 9)).
  reflexivity.
Defined.

Lemma delete_question_twice_witness :
  let q := mk_question 99 "abc" 2 in
  let d' := fst (delete_question _ as_row sample_db no_args (Question.id q)) in
  In q (Models.questions sample_db) /\
  NoDup (map Question.id (Models.questions sample_db)) /\
  delete_question _ as_row d' (page_request "1") (Question.id q) =
  (d', unprocessable _).
Proof.
  cbv zeta. split; [exact abc_in_sample_db|].
  split; [exact sample_db_ids_distinct|].
  apply (delete_question_twice _ as_row sample_db no_args (page_request "1")
           (mk_question 99 "abc" 2));
    [exact abc_in_sample_db | exact sample_db_ids_distinct].
Defined.

Lemma quiz_returns_requested_category_witness :
  let members :=
    [("id"%string, Py.JInt 1); ("type"%string, Py.JStr "Science")] in
  quiz_category quiz_science_after_5 = Some (Py.JObj members) /\
  Py.dict_get "id" members = Some (Py.JInt 1) /\
  Py.truthy (Py.JInt 1) = true /\
  int_column (Py.JInt 1) = Some 1 /\
  quiz_question _ as_row int_column sample_db quiz_science_after_5 0 =
    (200%nat, QuizBody true (Some (mk_question 24 "Which title came first?" 1))) /\
  exists q : Question.t,
    mk_question 24 "Which title came first?" 1 = as_row q /\
    In q (Models.questions sample_db) /\
    Question.category q = 1.
Proof.
  cbv zeta.
  split; [reflexivity|]. split; [reflexivity|]. split; [reflexivity|].
  split; [reflexivity|]. split; [reflexivity|].
  apply (quiz_returns_requested_category _ as_row int_column sample_db
           quiz_science_after_5 0%nat
           [("id"%string, Py.JInt 1); ("type"%string, Py.JStr "Science")]
           (Py.JInt 1) 1); reflexivity.
Defined.

Lemma quiz_reaches_every_row_witness :
  let q := mk_question 24 "Which title came first?" 1 in
  quiz_query int_column sample_db quiz_fresh =
    Return (Models.questions sample_db) /\
  In q (Models.questions sample_db) /\
  exists rand : nat,
    (rand < List.length (Models.questions sample_db))%nat /\
    quiz_question _ as_row int_column sample_db quiz_fresh rand =
      (200%nat, QuizBody true (Some (as_row q))).
Proof.
  cbv zeta. split; [reflexivity|].
  split; [simpl; right; right; left; reflexivity|].
  apply (quiz_reaches_every_row _ as_row int_column sample_db quiz_fresh
           (Models.questions sample_db));
    [reflexivity | simpl; right; right; left; reflexivity].
Defined.

Lemma category_listing_success_witness :
  let b :=
    CategoryBody true
      [mk_question 5 "What is the Title of this book?" 1;
       mk_question 24 "Which title came first?" 1] 3 "Science" in
  retrieve_questions_for_category _ as_row sample_db no_args 1 = (200%nat, b) /\
  exists (rows : list Question.t) (c : Category.t),
    b = CategoryBody true (map as_row rows)
          (List.length (Models.questions sample_db)) (Category.type c) /\
    Models.category_get sample_db 1 = Some c /\
    (1 <= List.length rows <= 10)%nat /\
    ascending rows = true /\
    (forall q, In q rows ->
               In q (Models.questions sample_db) /\ Question.category q = 1).
Proof.
  cbv zeta. split; [reflexivity|].
  apply (category_listing_success _ as_row sample_db no_args 1).
  reflexivity.
Defined.

Lemma sample_db_has_no_category_7 (q : Question.t) :
  In q (Models.questions sample_db) -> Question.category q <> 7.
Proof.
  simpl. intros [<- | [<- | [<- | []]]]; simpl; lia.
Defined.

(** Category 2 exists and category 7 does not; a category without
    questions is answered alike. *)
Lemma category_listing_without_questions_witness :
  (forall q, In q (Models.questions sample_db) -> Question.category q <> 7) /\
  retrieve_questions_for_category _ as_row sample_db no_args 7 = not_found _.
Proof.
  split; [exact sample_db_has_no_category_7|].
  apply (category_listing_without_questions _ as_row sample_db no_args 7).
  exact sample_db_has_no_category_7.
Defined.

Lemma category_listing_unknown_category_witness :
  In (mk_question 1 "Who?" 9) (Models.questions orphan_db) /\
  Question.category (mk_question 1 "Who?" 9) = 9 /\
  Models.category_get orphan_db 9 = None /\
  Py.dict_get "page" (args no_args) = None /\
  retrieve_questions_for_category _ as_row orphan_db no_args 9 =
    (500%nat, ErrorBody false 500 "something went wrong").
Proof.
  split; [left; reflexivity|]. split; [reflexivity|].
  split; [reflexivity|]. split; [reflexivity|].
  apply (category_listing_unknown_category _ as_row orphan_db no_args 9
           (mk_question 1 "Who?" 9));
    [left; reflexivity | reflexivity | reflexivity | reflexivity].
Defined.

Lemma sample_db_category_ids_distinct :
  NoDup (map Category.id (Models.categories sample_db)).
Proof.
  repeat constructor; simpl; intuition discriminate.
Defined.

Lemma get_categories_data_lookup_witness :
  NoDup (map Category.id (Models.categories sample_db)) /\
  success (get_categories_data sample_db) = true /\
  (forall c, In c (Models.categories sample_db) -> Category.id c = 2 ->
             getitem 2 (categories (get_categories_data sample_db)) =
             Some (Category.type c)) /\
  ((forall c, In c (Models.categories sample_db) -> Category.id c <> 2) ->
   getitem 2 (categories (get_categories_data sample_db)) = None).
Proof.
  split; [exact sample_db_category_ids_distinct|].
  apply (get_categories_data_lookup sample_db 2).
  exact sample_db_category_ids_distinct.
Defined.

Lemma sample_db_texts_ascii (q : Question.t) :
  In q (Models.questions sample_db) ->
  Py.is_ascii (Question.question q) = true.
Proof.
  simpl. intros [<- | [<- | [<- | []]]]; reflexivity.
Defined.

Lemma search_plain_term_is_substring_witness :
  (forall q, In q (Models.questions sample_db) ->
             Py.is_ascii (Question.question q) = true) /\
  Py.is_ascii "title" = true /\
  has_nul "title" = false /\
  wildcard_free "title" = true /\
  search_question _ as_row sample_db {| search := Some "title"%string |} =
  (200%nat,
   PageBody true
     [mk_question 5 "What is the Title of this book?" 1;
      mk_question 24 "Which title came first?" 1] 2).
Proof.
  split; [exact sample_db_texts_ascii|].
  split; [reflexivity|]. split; [reflexivity|]. split; [reflexivity|].
  apply (search_plain_term_is_substring _ as_row sample_db "title");
    [exact sample_db_texts_ascii | reflexivity | reflexivity | reflexivity].
Defined.

Lemma search_case_insensitive_witness :
  lowercase "TITLE" = lowercase "title" /\
  search_question _ as_row sample_db {| search := Some "TITLE"%string |} =
  search_question _ as_row sample_db {| search := Some "title"%string |}.
Proof.
  split; [reflexivity|].
  apply (search_case_insensitive _ as_row sample_db "TITLE" "title").
  reflexivity.
Defined.

(** A [quiz_category] that is JSON null. *)
Lemma quiz_category_not_object_witness :
  quiz_category quiz_null_category = Some Py.JNull /\
  (forall members, Py.JNull <> Py.JObj members) /\
  quiz_question _ as_row int_column sample_db quiz_null_category 0 =
    unprocessable _.
Proof.
  split; [reflexivity|]. split; [discriminate|].
  apply (quiz_category_not_object _ as_row int_column sample_db
           quiz_null_category 0%nat Py.JNull); [reflexivity | discriminate].
Defined.
